(** * Mirai idol-manager simulation (mirai_v0.0.1-alpha.py): the engine

    A shallow embedding of the day-cycle engine of the terminal game:
    the [Idol] and [GroupState] data model, the resolvers [practice],
    [work], [live] and [rest_day], the day-cycle controller [end_day],
    and the persistence pair [_state_to_dict] / [_state_from_dict].

    Modelling choices.
    - Python ints are [Z]; Python floats are modelled as exact reals [R]
      (no rounding), and [int(x)] on a float is truncation toward zero
      ([py_int]).
    - Every [random.randint] / [random.uniform] call is an explicit
      argument (a "draw"); the range each call can produce is stated by
      a separate predicate, used only where a property depends on it.
    - A resolver returns [option (status * GroupState)]: [None] is a
      Python exception escaping the resolver (IndexError,
      ZeroDivisionError, TypeError), which ends the program.
    - The menu prompts are out of the model: a resolver receives the
      validated choice that [choose_int] / [choose_from] returned.
    - The text fields (names, role, blurb, last live report) hold
      Python values as [json.loads] produces them, because the loader
      copies whatever value the snapshot holds into them. *)

From Stdlib Require Import ZArith Reals Lra Lia String Ascii List.
Import ListNotations.

Set Warnings "-register-all".

Open Scope bool_scope.
Open Scope string_scope.
Open Scope Z_scope.

(* ------------------------------------------------------------------ *)
(** ** Python values and helpers *)

(** A Python value as [json.loads] returns it; a [VDict] is a dict
    (its keys are distinct), kept in insertion order. *)
Inductive value : Type :=
| VNone
| VBool (b : bool)
| VInt (z : Z)
| VFloat (r : R)
| VStr (s : string)
| VList (l : list value)
| VDict (kvs : list (string * value)).

(** [d.get(k, default)] on a dict. *)
Fixpoint dict_get (kvs : list (string * value)) (k : string) (default : value)
  : value :=
  match kvs with
  | [] => default
  | (k', v) :: rest => if String.eqb k k' then v else dict_get rest k default
  end.

(** [int(x)] on a float: truncation toward zero. *)
Definition py_int (x : R) : Z :=
  if Rle_dec 0 x then Int_part x else - Int_part (- x).

(** [l[i]] for a Python list, negative indices counting from the end;
    [None] is an IndexError. *)
Definition py_index {A} (l : list A) (i : Z) : option A :=
  if i <? 0 then
    if Z.of_nat (length l) + i <? 0 then None
    else nth_error l (Z.to_nat (Z.of_nat (length l) + i))
  else nth_error l (Z.to_nat i).

(** In-place update of the object at [l[i]] (same index convention). *)
Fixpoint update_nth {A} (n : nat) (f : A -> A) (l : list A) : list A :=
  match l, n with
  | [], _ => []
  | x :: rest, O => f x :: rest
  | x :: rest, S n' => x :: update_nth n' f rest
  end.

Definition py_update {A} (l : list A) (i : Z) (f : A -> A) : list A :=
  if i <? 0 then update_nth (Z.to_nat (Z.of_nat (length l) + i)) f l
  else update_nth (Z.to_nat i) f l.

(** A [for] loop over a list whose body reads the k-th random draw. *)
Fixpoint mapi_from {A B} (f : nat -> A -> B) (k : nat) (l : list A) : list B :=
  match l with
  | [] => []
  | x :: rest => f k x :: mapi_from f (S k) rest
  end.

Definition mapi {A B} (f : nat -> A -> B) (l : list A) : list B :=
  mapi_from f O l.

(** [sum(xs) / len(xs)]; [None] is the ZeroDivisionError of an empty list. *)
Definition mean (xs : list R) : option R :=
  match xs with
  | [] => None
  | _ => Some (fold_left Rplus xs 0%R / INR (length xs))%R
  end.

Definition obind {A B} (m : option A) (f : A -> option B) : option B :=
  match m with Some a => f a | None => None end.

Notation "x <- m ;; k" := (obind m (fun x => k))
  (at level 61, m at next level, right associativity).

(* ------------------------------------------------------------------ *)
(** ** Data model *)

(** [STATS = ["vocal", "dance", "visual", "stamina", "mental"]] *)
Inductive stat : Type := vocal | dance | visual | stamina | mental.

Definition STATS : list stat := [vocal; dance; visual; stamina; mental].

Definition stat_key (k : stat) : string :=
  match k with
  | vocal => "vocal" | dance => "dance" | visual => "visual"
  | stamina => "stamina" | mental => "mental"
  end.

(** [Idol.stats]: a dict that always holds exactly the five [STATS] keys
    (built that way by [make_game] and by [_state_from_dict]). *)
Record stats : Type := mkStats {
  st_vocal : Z; st_dance : Z; st_visual : Z; st_stamina : Z; st_mental : Z
}.

Definition get_stat (s : stats) (k : stat) : Z :=
  match k with
  | vocal => st_vocal s | dance => st_dance s | visual => st_visual s
  | stamina => st_stamina s | mental => st_mental s
  end.

Definition set_stat (s : stats) (k : stat) (v : Z) : stats :=
  match k with
  | vocal => mkStats v (st_dance s) (st_visual s) (st_stamina s) (st_mental s)
  | dance => mkStats (st_vocal s) v (st_visual s) (st_stamina s) (st_mental s)
  | visual => mkStats (st_vocal s) (st_dance s) v (st_stamina s) (st_mental s)
  | stamina => mkStats (st_vocal s) (st_dance s) (st_visual s) v (st_mental s)
  | mental => mkStats (st_vocal s) (st_dance s) (st_visual s) (st_stamina s) v
  end.

Record Idol : Type := mkIdol {
  idol_name : value;
  age : Z;
  role : value;
  blurb : value;
  idol_stats : stats
}.

Definition with_stats (i : Idol) (s : stats) : Idol :=
  mkIdol (idol_name i) (age i) (role i) (blurb i) s.

(** [max(1, min(100, int(v)))] *)
Definition clamp (v : Z) : Z := Z.max 1 (Z.min 100 v).

(** [Idol.clamp_stats]: [for k in STATS: self.stats[k] = clamp(...)]. *)
Definition clamp_stats (i : Idol) : Idol :=
  with_stats i
    (fold_left (fun s k => set_stat s k (clamp (get_stat s k)))
       STATS (idol_stats i)).

(** [Idol.avg_perf] *)
Definition avg_perf (i : Idol) : R :=
  let s := idol_stats i in
  (0.30 * IZR (st_vocal s) + 0.30 * IZR (st_dance s)
   + 0.25 * IZR (st_visual s) + 0.10 * IZR (st_mental s)
   + 0.05 * IZR (st_stamina s))%R.

Record GroupState : Type := mkGroupState {
  name : value;
  agency : value;
  ai_name : value;
  idols : list Idol;
  day : Z;
  funds : Z;
  fans : Z;
  reputation : R;
  last_live_report : value
}.

Definition set_idols (g : GroupState) (l : list Idol) : GroupState :=
  mkGroupState (name g) (agency g) (ai_name g) l (day g) (funds g) (fans g)
    (reputation g) (last_live_report g).
Definition set_day (g : GroupState) (v : Z) : GroupState :=
  mkGroupState (name g) (agency g) (ai_name g) (idols g) v (funds g) (fans g)
    (reputation g) (last_live_report g).
Definition set_funds (g : GroupState) (v : Z) : GroupState :=
  mkGroupState (name g) (agency g) (ai_name g) (idols g) (day g) v (fans g)
    (reputation g) (last_live_report g).
Definition set_fans (g : GroupState) (v : Z) : GroupState :=
  mkGroupState (name g) (agency g) (ai_name g) (idols g) (day g) (funds g) v
    (reputation g) (last_live_report g).
Definition set_reputation (g : GroupState) (v : R) : GroupState :=
  mkGroupState (name g) (agency g) (ai_name g) (idols g) (day g) (funds g)
    (fans g) v (last_live_report g).
Definition set_last_live_report (g : GroupState) (v : value) : GroupState :=
  mkGroupState (name g) (agency g) (ai_name g) (idols g) (day g) (funds g)
    (fans g) (reputation g) v.

(** [GroupState.group_perf] *)
Definition group_perf (g : GroupState) : option R :=
  mean (map avg_perf (idols g)).

(** [GroupState.group_energy]: [(st + me) / 2]. *)
Definition group_energy (g : GroupState) : option R :=
  st <- mean (map (fun i => IZR (st_stamina (idol_stats i))) (idols g)) ;;
  me <- mean (map (fun i => IZR (st_mental (idol_stats i))) (idols g)) ;;
  Some ((st + me) / 2)%R.

(** [apply_fatigue]: stamina and mental go down, then the stats are clamped. *)
Definition apply_fatigue (i : Idol) (stamina_cost mental_cost : Z) : Idol :=
  let s := idol_stats i in
  let s := set_stat s stamina (get_stat s stamina - stamina_cost) in
  let s := set_stat s mental (get_stat s mental - mental_cost) in
  clamp_stats (with_stats i s).

(* ------------------------------------------------------------------ *)
(** ** Resolvers *)

(** What a resolver reports: it ran to the end, or it stopped at the
    funds check ("Not enough funds ...") before touching the state. *)
Inductive status : Type := Completed | InsufficientFunds.

(** *** [practice] *)

(** Draws of [practice]: [base_gain] ([randint(2,5)], or [randint(2,6)]
    for stamina and mental) and the k-th [randint] of the gain loop
    ([randint(0,3)] solo, [randint(0,2)] per idol in group practice). *)
Record practice_draws : Type := {
  pd_base_gain : Z;
  pd_extra : nat -> Z
}.

Definition practice_draws_ok (idx : Z) (attr : stat) (d : practice_draws) : Prop :=
  2 <= pd_base_gain d <= (match attr with stamina | mental => 6 | _ => 5 end)
  /\ forall k, 0 <= pd_extra d k <= (if idx =? 4 then 2 else 3).

(** [idol.stats[attr] += gain; apply_fatigue(idol, ...); idol.clamp_stats()] *)
Definition train_idol (attr : stat) (gain sc mc : Z) (i : Idol) : Idol :=
  let s := idol_stats i in
  let i := with_stats i (set_stat s attr (get_stat s attr + gain)) in
  clamp_stats (apply_fatigue i sc mc).

(** [practice(state)] after the prompts returned [idx] (1..4, 4 = group)
    and [attr]. *)
Definition practice (g : GroupState) (idx : Z) (attr : stat)
    (d : practice_draws) : option (status * GroupState) :=
  let funds_cost := if negb (idx =? 4) then 120 else 220 in
  if funds g <? funds_cost then Some (InsufficientFunds, g) else
  let g := set_funds g (funds g - funds_cost) in
  if idx =? 4 then
    let l := mapi (fun k i =>
               train_idol attr (Z.max 1 (pd_base_gain d - 1 + pd_extra d k)) 2 1 i)
               (idols g) in
    Some (Completed, set_reputation (set_idols g l) (reputation g + 0.03)%R)
  else
    _ <- py_index (idols g) (idx - 1) ;;
    let gain := pd_base_gain d + pd_extra d O in
    let l := py_update (idols g) (idx - 1) (train_idol attr gain 3 2) in
    Some (Completed, set_reputation (set_idols g l) (reputation g + 0.01)%R).

(** *** [work] *)

Inductive activity : Type := Flyers | GuerillaLive.

(** Draws of [work]: [randint(8,16)] (flyers); [uniform(0.85,1.20)],
    [randint(10,30)] and [uniform(-0.01,0.03)] (guerilla live). *)
Record work_draws : Type := {
  wd_flyers : Z;
  wd_crowd_roll : R;
  wd_guerilla : Z;
  wd_rep : R
}.

Definition work_draws_ok (d : work_draws) : Prop :=
  8 <= wd_flyers d <= 16 /\ (0.85 <= wd_crowd_roll d <= 1.20)%R
  /\ 10 <= wd_guerilla d <= 30 /\ (-0.01 <= wd_rep d <= 0.03)%R.

(** [workers]: the whole list when [worker_choice == len(idols) + 1],
    else [[idols[worker_choice - 1]]]. *)
Definition select_workers (l : list Idol) (worker_choice : Z) : option (list Idol) :=
  if worker_choice =? Z.of_nat (length l) + 1 then Some l
  else option_map (fun i => [i]) (py_index l (worker_choice - 1)).

(** [for idol in workers: apply_fatigue(idol, sc, mc)], the workers being
    the very objects held by [state.idols]. *)
Definition fatigue_workers (l : list Idol) (worker_choice sc mc : Z) : list Idol :=
  if worker_choice =? Z.of_nat (length l) + 1
  then map (fun i => apply_fatigue i sc mc) l
  else py_update l (worker_choice - 1) (fun i => apply_fatigue i sc mc).

Definition work (g : GroupState) (worker_choice : Z) (choice : activity)
    (d : work_draws) : option (status * GroupState) :=
  workers <- select_workers (idols g) worker_choice ;;
  match choice with
  | Flyers =>
      if funds g <? 60 then Some (InsufficientFunds, g) else
      let g := set_funds g (funds g - 60) in
      vis <- mean (map (fun i => IZR (st_visual (idol_stats i))) workers) ;;
      men <- mean (map (fun i => IZR (st_mental (idol_stats i))) workers) ;;
      let gain := py_int (IZR (wd_flyers d) + (vis + men) * 0.10
                          + reputation g * 4)%R in
      let gain := Z.max 5 gain in
      let g := set_fans g (fans g + gain) in
      Some (Completed, set_idols g (fatigue_workers (idols g) worker_choice 1 1))
  | GuerillaLive =>
      if funds g <? 140 then Some (InsufficientFunds, g) else
      let g := set_funds g (funds g - 140) in
      perf <- mean (map avg_perf workers) ;;
      energy <- mean (map (fun i => (IZR (st_stamina (idol_stats i))
                                      + IZR (st_mental (idol_stats i))) / 2)%R
                          workers) ;;
      let crowd_roll := wd_crowd_roll d in
      let exhaustion_penalty := Rmax 0 ((55 - energy) * 0.12) in
      let gain := py_int ((perf * 0.55 + IZR (wd_guerilla d) + reputation g * 10)
                          * crowd_roll - exhaustion_penalty)%R in
      let gain := Z.max 6 gain in
      let g := set_fans g (fans g + gain) in
      let rep_delta := ((perf - 45) / 900 + wd_rep d)%R in
      let g := set_reputation g (reputation g + rep_delta)%R in
      Some (Completed, set_idols g (fatigue_workers (idols g) worker_choice 4 3))
  end.

(** *** [live] *)

Definition venue_name : string := "Hoshizora Park Stage".
Definition capacity : Z := 300.
Definition song : string := "Sunset Protocol (Debut Ver.)".
Definition formations : list string :=
  ["Classic Triangle (Aoi center)"; "Twin Wings (Yui & Rina front)";
   "Line-Up (equal focus)"].
Definition venue_cost : Z := 350.
Definition ticket_price : Z := 400.

(** Draws of [live], in call order: [uniform(-3,6)] (hype),
    [randint(15,60)] (walk-ins), [uniform(-2.5,2.5)] (performance),
    [uniform(-3,3)] (satisfaction), [randint(40,90)] (merch per head),
    [randint(2,12)] (fan gain) and [randint(1,8)] (fan loss, drawn only
    when satisfaction < 46). *)
Record live_draws : Type := {
  ld_hype : R;
  ld_walk_ins : Z;
  ld_perf : R;
  ld_satisfaction : R;
  ld_merch : Z;
  ld_gain : Z;
  ld_loss : Z
}.

Definition live_draws_ok (d : live_draws) : Prop :=
  (-3 <= ld_hype d <= 6)%R /\ 15 <= ld_walk_ins d <= 60
  /\ (-2.5 <= ld_perf d <= 2.5)%R /\ (-3 <= ld_satisfaction d <= 3)%R
  /\ 40 <= ld_merch d <= 90 /\ 2 <= ld_gain d <= 12 /\ 1 <= ld_loss d <= 8.

(** The values the live report is printed from. *)
Record live_report : Type := {
  lr_formation : string;
  lr_turnout : Z;
  lr_perf : R;
  lr_energy : R;
  lr_hype : R;
  lr_performance_score : R;
  lr_satisfaction : R;
  lr_review : string;
  lr_income : Z;
  lr_gained_fans : Z;
  lr_lost_fans : Z;
  lr_rep_delta : R
}.

(** The outcome tier: [(review, fan_mult, rep_delta)], tested from the
    top ([if satisfaction >= 62 ... elif >= 54 ... elif >= 48 ... else]). *)
Definition live_tier (satisfaction : R) : string * R * R :=
  if Rle_dec 62 satisfaction then
    ("The crowd roared - people stayed to watch twice.", 0.22, 0.10)%R
  else if Rle_dec 54 satisfaction then
    ("A warm reception - new faces asked for your next schedule.", 0.14, 0.05)%R
  else if Rle_dec 48 satisfaction then
    ("A decent showing - some cheers, some polite claps.", 0.08, 0.02)%R
  else
    ("Nerves showed - but you finished the song together.", 0.04, -0.01)%R.

(** [turnout = max(0, min(capacity, int(fans * (0.18 + min(0.22, hype / 200.0)) + walk_ins)))] *)
Definition live_turnout (fans0 : Z) (hype : R) (walk_ins : Z) : Z :=
  let expected := py_int (IZR fans0 * (0.18 + Rmin 0.22 (hype / 200))
                          + IZR walk_ins)%R in
  Z.max 0 (Z.min capacity expected).

(** [lost_fans]: [int(min(fans * 0.03, randint(1, 8)))] when satisfaction < 46. *)
Definition live_lost_fans (fans0 : Z) (satisfaction : R) (loss : Z) : Z :=
  if Rlt_dec satisfaction 46 then py_int (Rmin (IZR fans0 * 0.03) (IZR loss))
  else 0.

(** The body of [live(state)] after the prompt returned [form_idx]
    (0..2): [None] is an exception, [Some None] the funds check failing,
    [Some (Some (g, report))] the state before [state.last_live_report]
    is set, with the values the report is printed from. *)
Definition live_settle (g : GroupState) (form_idx : nat) (d : live_draws)
    : option (option (GroupState * live_report)) :=
  formation <- nth_error formations form_idx ;;
  if funds g <? venue_cost then Some None else
  perf <- group_perf g ;;
  energy <- group_energy g ;;
  (* [state.fans ** 0.5] is a complex number when fans < 0, and
     [max(0, hype)] then raises TypeError *)
  if fans g <? 0 then None else
  let hype := (sqrt (IZR (fans g)) * 4 + reputation g * 20 + ld_hype d)%R in
  let hype := Rmax 0 hype in
  let turnout := live_turnout (fans g) hype (ld_walk_ins d) in
  let energy_factor := (1 - Rmax 0 ((55 - energy) / 120))%R in
  form_bonus <- nth_error [1.02; 1.01; 1.00]%R form_idx ;;
  let performance_score :=
    (perf * form_bonus * energy_factor + ld_perf d + hype / 25)%R in
  let satisfaction := (performance_score + ld_satisfaction d)%R in
  let '(review, fan_mult, rep_delta) := live_tier satisfaction in
  let income := turnout * (ticket_price + ld_merch d) in
  let g := set_funds g (funds g + (income - venue_cost)) in
  let gained_fans := py_int (IZR turnout * fan_mult + IZR (ld_gain d))%R in
  let lost_fans := live_lost_fans (fans g) satisfaction (ld_loss d) in
  let g := set_fans g (Z.max 0 (fans g + gained_fans - lost_fans)) in
  let g := set_idols g (map (fun i => apply_fatigue i 6 5) (idols g)) in
  let g := set_reputation g (reputation g + rep_delta)%R in
  Some (Some (g, {| lr_formation := formation; lr_turnout := turnout;
                    lr_perf := perf; lr_energy := energy; lr_hype := hype;
                    lr_performance_score := performance_score;
                    lr_satisfaction := satisfaction; lr_review := review;
                    lr_income := income; lr_gained_fans := gained_fans;
                    lr_lost_fans := lost_fans; lr_rep_delta := rep_delta |})).

Section Engine.

(** The f-string rendering of the live report (presentation). *)
Variable format_report : live_report -> string.

(** [live(state)] *)
Definition live (g : GroupState) (form_idx : nat) (d : live_draws)
    : option (status * GroupState) :=
  match live_settle g form_idx d with
  | None => None
  | Some None => Some (InsufficientFunds, g)
  | Some (Some (g', report)) =>
      Some (Completed, set_last_live_report g' (VStr (format_report report)))
  end.

(** *** [rest_day] *)

(** Draws of [rest_day]: per idol k, [randint(6,10)] stamina and
    [randint(5,9)] mental. *)
Record rest_draws : Type := {
  rd_stamina : nat -> Z;
  rd_mental : nat -> Z
}.

Definition rest_idol (ds dm : Z) (i : Idol) : Idol :=
  let s := idol_stats i in
  let s := set_stat s stamina (get_stat s stamina + ds) in
  let s := set_stat s mental (get_stat s mental + dm) in
  clamp_stats (with_stats i s).

Definition rest_day (g : GroupState) (d : rest_draws) : GroupState :=
  let l := mapi (fun k i => rest_idol (rd_stamina d k) (rd_mental d k) i) (idols g) in
  let g := set_idols g l in
  set_reputation g (Rmax (-1) (reputation g - 0.01))%R.

(** *** [end_day], with [r = randint(-1, 3)]

    [drift_sum rep r] is the value the float expression
    [state.reputation * 2 + r] evaluates to; [end_day] takes it exact. *)
Definition end_day_gen (drift_sum : R -> Z -> R) (g : GroupState) (r : Z)
    : GroupState :=
  let g := set_day g (day g + 1) in
  let drift := py_int (drift_sum (reputation g) r) in
  let g := if drift >? 0 then set_fans g (fans g + drift) else g in
  set_fans g (Z.max 0 (fans g)).

Definition end_day (g : GroupState) (r : Z) : GroupState :=
  end_day_gen (fun rep r => rep * 2 + IZR r)%R g r.

(** *** One engine operation, as [main] dispatches it *)
Inductive action : Type :=
| APractice (idx : Z) (attr : stat) (d : practice_draws)
| AWork (worker_choice : Z) (choice : activity) (d : work_draws)
| ALive (form_idx : nat) (d : live_draws)
| ARest (d : rest_draws)
| AEndDay (r : Z).

Definition step (g : GroupState) (a : action) : option (status * GroupState) :=
  match a with
  | APractice idx attr d => practice g idx attr d
  | AWork wc c d => work g wc c d
  | ALive f d => live g f d
  | ARest d => Some (Completed, rest_day g d)
  | AEndDay r => Some (Completed, end_day g r)
  end.

End Engine.

(* ------------------------------------------------------------------ *)
(** ** [make_game] *)

Definition make_game : GroupState :=
  let leader := mkIdol (VStr "Aoi Kisaragi") 15
    (VStr "Leader (quiet, searching for her smile)")
    (VStr ("Shy and sharply observant, Aoi speaks softly like she’s afraid of taking up space. "
      ++ "She calls herself a realist - others might say nihilistic - but something in her keeps "
      ++ "reaching for warmth anyway. The AI chose her as leader for her steadiness under pressure. "
      ++ "She’s learning how to smile on purpose, not by accident."))
    (mkStats 46 44 48 52 60) in
  let bubbly := mkIdol (VStr "Yui Tachibana") 15
    (VStr "Mood-maker (bubbly, clumsy, sincere)")
    (VStr ("Yui is bright enough to light a hallway - sometimes literally, because she trips over cables. "
      ++ "She wants to make people happy more than she wants applause. When she laughs, the room "
      ++ "forgives everything. The AI flagged her “empathy resonance” as unusually high."))
    (mkStats 42 50 47 58 48) in
  let serious := mkIdol (VStr "Rina Kurosawa") 16
    (VStr "Strategist (smart, serious, skeptical)")
    (VStr ("Rina learns fast, speaks precisely, and doesn’t trust dreams that can’t be measured. "
      ++ "At first she doubts the project - an AI picking idols felt like a gimmick to her. "
      ++ "But she can’t ignore the data: the group is improving, and something real is forming. "
      ++ "She’ll believe in Sunset Symphony when it earns it."))
    (mkStats 50 46 45 50 62) in
  mkGroupState (VStr "Sunset Symphony") (VStr "Mirai Productions")
    (VStr "ORACLE//MIRAI") [leader; bubbly; serious] 1 2000 40 0%R (VStr "").

(* ------------------------------------------------------------------ *)
(** ** Persistence *)

(** [_state_to_dict] *)
Definition idol_to_dict (i : Idol) : value :=
  VDict [("name", idol_name i); ("age", VInt (age i)); ("role", role i);
         ("blurb", blurb i);
         ("stats", VDict (map (fun k => (stat_key k, VInt (get_stat (idol_stats i) k)))
                              STATS))].

Definition _state_to_dict (g : GroupState) : value :=
  VDict [("name", name g); ("agency", agency g); ("ai_name", ai_name g);
         ("day", VInt (day g)); ("funds", VInt (funds g)); ("fans", VInt (fans g));
         ("reputation", VFloat (reputation g));
         ("last_live_report", last_live_report g);
         ("idols", VList (map idol_to_dict (idols g)))].

Section Load.

(** [int(s)] and [float(s)] on a string ([None]: ValueError). *)
Variable parse_int : string -> option Z.
Variable parse_float : string -> option R.

(** [int(v)]; [None] is the ValueError / TypeError it raises. *)
Definition py_int_of (v : value) : option Z :=
  match v with
  | VInt z => Some z
  | VBool b => Some (if b then 1 else 0)
  | VFloat r => Some (py_int r)
  | VStr s => parse_int s
  | _ => None
  end.

(** [float(v)] *)
Definition py_float_of (v : value) : option R :=
  match v with
  | VInt z => Some (IZR z)
  | VBool b => Some (if b then 1 else 0)%R
  | VFloat r => Some r
  | VStr s => parse_float s
  | _ => None
  end.

(** [for payload in v]: iterating a list, the keys of a dict or the
    characters of a string; anything else raises TypeError. *)
Definition py_iter (v : value) : option (list value) :=
  match v with
  | VList l => Some l
  | VDict kvs => Some (map (fun kv => VStr (fst kv)) kvs)
  | VStr s => Some (map (fun c => VStr (String c EmptyString)) (list_ascii_of_string s))
  | _ => None
  end.

(** [v.get(...)] exists only on a dict (AttributeError otherwise). *)
Definition as_dict (v : value) : option (list (string * value)) :=
  match v with VDict kvs => Some kvs | _ => None end.

Fixpoint map_option {A B} (f : A -> option B) (l : list A) : option (list B) :=
  match l with
  | [] => Some []
  | x :: rest => y <- f x ;; ys <- map_option f rest ;; Some (y :: ys)
  end.

(** One pass of the loop of [_state_from_dict]. *)
Definition idol_from_dict (payload : value) : option Idol :=
  p <- as_dict payload ;;
  st <- as_dict (dict_get p "stats" (VDict [])) ;;
  vo <- py_int_of (dict_get st "vocal" (VInt 1)) ;;
  da <- py_int_of (dict_get st "dance" (VInt 1)) ;;
  vi <- py_int_of (dict_get st "visual" (VInt 1)) ;;
  sa <- py_int_of (dict_get st "stamina" (VInt 1)) ;;
  me <- py_int_of (dict_get st "mental" (VInt 1)) ;;
  a <- py_int_of (dict_get p "age" (VInt 15)) ;;
  Some (clamp_stats
          (mkIdol (dict_get p "name" (VStr "Unknown")) a
                  (dict_get p "role" (VStr "Member"))
                  (dict_get p "blurb" (VStr ""))
                  (mkStats vo da vi sa me))).

(** [_state_from_dict(data)]: [None] is an exception, [Some None] the
    [return None] of a snapshot without idols. *)
Definition _state_from_dict (data : value) : option (option GroupState) :=
  d <- as_dict data ;;
  payloads <- py_iter (dict_get d "idols" (VList [])) ;;
  l <- map_option idol_from_dict payloads ;;
  match l with
  | [] => Some None
  | _ =>
      dy <- py_int_of (dict_get d "day" (VInt 1)) ;;
      fu <- py_int_of (dict_get d "funds" (VInt 2000)) ;;
      fa <- py_int_of (dict_get d "fans" (VInt 40)) ;;
      re <- py_float_of (dict_get d "reputation" (VFloat 0)) ;;
      Some (Some (mkGroupState (dict_get d "name" (VStr "Sunset Symphony"))
                    (dict_get d "agency" (VStr "Mirai Productions"))
                    (dict_get d "ai_name" (VStr "ORACLE//MIRAI"))
                    l dy fu fa re (dict_get d "last_live_report" (VStr ""))))
  end.

End Load.

(* ------------------------------------------------------------------ *)
(** ** Predicates the properties are stated with *)

(** Every stat of the idol is in [1, 100]. *)
Definition stats_in_range (i : Idol) : bool :=
  forallb (fun k => (1 <=? get_stat (idol_stats i) k)
                    && (get_stat (idol_stats i) k <=? 100)) STATS.

Definition stats_valid (g : GroupState) : bool :=
  forallb stats_in_range (idols g).

(** The fixed cost an action checks against [state.funds]. *)
Definition action_cost (a : action) : option Z :=
  match a with
  | APractice idx _ _ => Some (if negb (idx =? 4) then 120 else 220)
  | AWork _ Flyers _ => Some 60
  | AWork _ GuerillaLive _ => Some 140
  | ALive _ _ => Some venue_cost
  | ARest _ | AEndDay _ => None
  end.

(** The choices the prompts can return ([choose_int] / [choose_from]). *)
Definition valid_choice (g : GroupState) (a : action) : Prop :=
  match a with
  | APractice idx _ _ => 1 <= idx <= 4
  | AWork wc _ _ => 1 <= wc <= Z.of_nat (length (idols g)) + 1
  | ALive f _ => (f < 3)%nat
  | ARest _ | AEndDay _ => True
  end.

(** The ranges of the random calls of each action. *)
Definition rest_draws_ok (d : rest_draws) : Prop :=
  forall k, 6 <= rd_stamina d k <= 10 /\ 5 <= rd_mental d k <= 9.

Definition draws_ok (a : action) : Prop :=
  match a with
  | APractice idx attr d => practice_draws_ok idx attr d
  | AWork _ _ d => work_draws_ok d
  | ALive _ d => live_draws_ok d
  | ARest d => rest_draws_ok d
  | AEndDay r => -1 <= r <= 3
  end.

(** An engine operation: an action, or loading a snapshot. *)
Inductive engine_op : Type :=
| OpAction (a : action)
| OpLoad (data : value).

Definition engine (format_report : live_report -> string)
    (parse_int : string -> option Z) (parse_float : string -> option R)
    (g : GroupState) (o : engine_op) : option GroupState :=
  match o with
  | OpAction a => option_map snd (step format_report g a)
  | OpLoad data =>
      match _state_from_dict parse_int parse_float data with
      | Some (Some g') => Some g'
      | _ => None
      end
  end.

(* ------------------------------------------------------------------ *)
(** ** Concrete scenarios *)

(** The opening state with the leader's stamina at 98. *)
Definition rest_scenario : GroupState :=
  set_idols make_game
    (update_nth 0 (fun i => with_stats i (set_stat (idol_stats i) stamina 98))
       (idols make_game)).

(** [rest_day] drawing the largest gains, [randint(6,10) = 10] and
    [randint(5,9) = 9]. *)
Definition rest_draws_max : rest_draws :=
  {| rd_stamina := fun _ => 10; rd_mental := fun _ => 9 |}.

(** Practice draws: [base_gain = 3] and every extra [randint] at 1. *)
Definition practice_draws_1 : practice_draws :=
  {| pd_base_gain := 3; pd_extra := fun _ => 1 |}.

(** The opening state with a single fan, for a live. *)
Definition live_scenario : GroupState := set_fans make_game 1.

(** Live draws: no hype or performance noise, the fewest walk-ins (15),
    merch 40, fan gain 2, fan loss 1. *)
Definition live_draws_low : live_draws :=
  {| ld_hype := 0; ld_walk_ins := 15; ld_perf := 0; ld_satisfaction := 0;
     ld_merch := 40; ld_gain := 2; ld_loss := 1 |}.

(** The outcome tiers as the spec words them: [(review, fan_mult,
    rep_delta)] is the one of four disjoint satisfaction bands that
    contains [sat]. *)
Definition tier_matches (sat : R) (t : string * R * R) : Prop :=
  let '(_, fan_mult, rep_delta) := t in
  ((62 <= sat /\ fan_mult = 0.22 /\ rep_delta = 0.10)
   \/ (54 <= sat < 62 /\ fan_mult = 0.14 /\ rep_delta = 0.05)
   \/ (48 <= sat < 54 /\ fan_mult = 0.08 /\ rep_delta = 0.02)
   \/ (sat < 48 /\ fan_mult = 0.04 /\ rep_delta = -0.01))%R.

(** The turnout as the spec words it:
    [clamp(fans * (0.18 + min(0.22, hype / 200)) + walkIns, 0, 300)]. *)
Definition spec_turnout (fans0 : Z) (hype : R) (walk_ins : Z) : R :=
  Rmax 0 (Rmin 300 (IZR fans0 * (0.18 + Rmin 0.22 (hype / 200)) + IZR walk_ins)).

(* ------------------------------------------------------------------ *)
(** ** Menu input: [choose_int] and [choose_from]

    The lines [input()] returns are a list of strings, read in order; an
    exhausted list is the EOFError of [input()].  Characters are ASCII:
    [str.isdigit] and [int] are those of ASCII digits, and [str.strip]
    removes the ASCII characters [str.isspace] accepts. *)

Definition is_py_space (c : ascii) : bool :=
  match nat_of_ascii c with
  | 9 | 10 | 11 | 12 | 13 | 28 | 29 | 30 | 31 | 32 => true
  | _ => false
  end%nat.

Definition is_digit (c : ascii) : bool :=
  (48 <=? nat_of_ascii c)%nat && (nat_of_ascii c <=? 57)%nat.

Fixpoint drop_spaces (l : list ascii) : list ascii :=
  match l with
  | c :: rest => if is_py_space c then drop_spaces rest else l
  | [] => []
  end.

(** [s.strip()] *)
Definition py_strip (s : string) : string :=
  string_of_list_ascii
    (rev (drop_spaces (rev (drop_spaces (list_ascii_of_string s))))).

(** [s.isdigit()]: non-empty and all digits. *)
Definition py_isdigit (s : string) : bool :=
  match s with
  | EmptyString => false
  | _ => forallb is_digit (list_ascii_of_string s)
  end.

(** [int(s)] on a string of digits. *)
Definition digits_value (s : string) : Z :=
  fold_left (fun acc c => acc * 10 + (Z.of_nat (nat_of_ascii c) - 48))
    (list_ascii_of_string s) 0.

(** [choose_int(prompt, lo, hi, allow_blank, allow_cancel)]: the value
    returned ([None] for a blank or cancel answer) and the lines left. *)
Fixpoint choose_int (lo hi : Z) (allow_blank allow_cancel : bool)
    (inputs : list string) : option (option Z * list string) :=
  match inputs with
  | [] => None
  | line :: rest =>
      let raw := py_strip line in
      if allow_blank && String.eqb raw "" then Some (None, rest)
      else if allow_cancel && String.eqb raw "0" then Some (None, rest)
      else if py_isdigit raw && (lo <=? digits_value raw)
              && (digits_value raw <=? hi)
      then Some (Some (digits_value raw), rest)
      else choose_int lo hi allow_blank allow_cancel rest
  end.

(** [choose_from(prompt, options, allow_cancel)]: a 0-based index. *)
Definition choose_from {A} (options : list A) (allow_cancel : bool)
    (inputs : list string) : option (option Z * list string) :=
  match choose_int 1 (Z.of_nat (length options)) false allow_cancel inputs with
  | Some (Some v, rest) => Some (Some (v - 1), rest)
  | Some (None, rest) => Some (None, rest)
  | None => None
  end.

(** What one [train_idol] adds to stat [k]: the gain on the trained
    stat, minus the fatigue costs on stamina and mental. *)
Definition train_delta (attr : stat) (gain sc mc : Z) (k : stat) : Z :=
  (if String.eqb (stat_key k) (stat_key attr) then gain else 0)
  - match k with stamina => sc | mental => mc | _ => 0 end.

(** The fields of an idol no action writes: name, age, role, blurb. *)
Definition idol_ident (i : Idol) : value * Z * value * value :=
  (idol_name i, age i, role i, blurb i).

(* ------------------------------------------------------------------ *)
(** ** Lemmas on [int()] *)

Lemma IZR_lt_plus1 (z w : Z) : (IZR z - 1 < IZR w)%R -> z <= w.
Proof.
  intros H. assert (IZR (z - 1) < IZR w)%R as H'.
  { rewrite minus_IZR. exact H. }
  apply lt_IZR in H'. lia.
Qed.

Lemma py_int_lower (x : R) (z : Z) : (IZR z <= x)%R -> z <= py_int x.
Proof.
  intros Hz. unfold py_int. destruct (Rle_dec 0 x) as [H0 | H0].
  - destruct (base_Int_part x) as [_ H2]. apply IZR_lt_plus1. lra.
  - destruct (base_Int_part (- x)) as [H1 _].
    assert (Int_part (- x) <= - z); [| lia].
    apply le_IZR. rewrite opp_IZR. lra.
Qed.

Lemma py_int_upper (x : R) : (0 <= x)%R -> (IZR (py_int x) <= x)%R.
Proof.
  intros H. unfold py_int. destruct (Rle_dec 0 x); [| lra].
  apply base_Int_part.
Qed.

Lemma py_int_nonneg (x : R) : (0 <= x)%R -> 0 <= py_int x.
Proof. intros H. apply py_int_lower. exact H. Qed.

Lemma Int_part_IZR (z : Z) : Int_part (IZR z) = z.
Proof. symmetry. apply Int_part_spec. lra. Qed.

Lemma py_int_IZR (z : Z) : py_int (IZR z) = z.
Proof.
  unfold py_int. destruct (Rle_dec 0 (IZR z)).
  - apply Int_part_IZR.
  - rewrite <- opp_IZR, Int_part_IZR. lia.
Qed.

(** [int()] and [floor] have the same positive values. *)
Lemma py_int_floor_pos (x : R) :
  (0 <? py_int x) = (0 <? Int_part x) /\ (0 < Int_part x -> py_int x = Int_part x).
Proof.
  unfold py_int. destruct (Rle_dec 0 x) as [H | H].
  - split; auto.
  - destruct (base_Int_part x) as [H1 _].
    assert (Int_part x < 0).
    { apply lt_IZR. lra. }
    assert (0 <= Int_part (- x)).
    { apply IZR_lt_plus1. destruct (base_Int_part (- x)). lra. }
    split; [| lia].
    destruct (0 <? - Int_part (- x)) eqn:E1, (0 <? Int_part x) eqn:E2; auto; lia.
Qed.

(* ------------------------------------------------------------------ *)
(** ** Lemmas on [clamp_stats] *)

Lemma clamp_in_range (v : Z) : (1 <=? clamp v) && (clamp v <=? 100) = true.
Proof. unfold clamp. apply andb_true_intro; split; apply Z.leb_le; lia. Qed.

Lemma clamp_stats_in_range (i : Idol) : stats_in_range (clamp_stats i) = true.
Proof.
  destruct i as [n a r b [v d vi s m]].
  unfold stats_in_range, clamp_stats. simpl.
  rewrite !clamp_in_range. reflexivity.
Qed.

Lemma clamp_id (v : Z) : 1 <= v <= 100 -> clamp v = v.
Proof. unfold clamp. lia. Qed.

Lemma clamp_stats_id (i : Idol) : stats_in_range i = true -> clamp_stats i = i.
Proof.
  destruct i as [n a r b [v d vi s m]].
  unfold stats_in_range, clamp_stats. simpl.
  rewrite !Bool.andb_true_iff, !Z.leb_le. intros (H1 & H2 & H3 & H4 & H5 & _).
  rewrite !clamp_id by lia. reflexivity.
Qed.

(* ------------------------------------------------------------------ *)
(** ** Lemmas on the list updates *)

Section ListLemmas.

Context {A : Type} (P : A -> bool).

Lemma forallb_mapi_from (f : nat -> A -> A) (k : nat) (l : list A) :
  (forall k x, P (f k x) = true) -> forallb P (mapi_from f k l) = true.
Proof.
  intros Hf. revert k. induction l as [| x l IH]; intros k; simpl; auto.
  rewrite Hf. apply IH.
Qed.

Lemma forallb_update_nth (f : A -> A) (n : nat) (l : list A) :
  (forall x, P x = true -> P (f x) = true) ->
  forallb P l = true -> forallb P (update_nth n f l) = true.
Proof.
  intros Hf. revert n. induction l as [| x l IH]; intros n Hl; destruct n;
    simpl in *; auto; apply andb_prop in Hl; destruct Hl as [Hx Hl].
  - rewrite Hf, Hl; auto.
  - rewrite Hx. apply IH. exact Hl.
Qed.

Lemma forallb_py_update (f : A -> A) (i : Z) (l : list A) :
  (forall x, P x = true -> P (f x) = true) ->
  forallb P l = true -> forallb P (py_update l i f) = true.
Proof.
  intros Hf Hl. unfold py_update. destruct (i <? 0); apply forallb_update_nth; auto.
Qed.

Lemma forallb_map_always (f : A -> A) (l : list A) :
  (forall x, P (f x) = true) -> forallb P (map f l) = true.
Proof.
  intros Hf. induction l as [| x l IH]; simpl; auto. rewrite Hf. exact IH.
Qed.

End ListLemmas.

Lemma apply_fatigue_in_range (i : Idol) (sc mc : Z) :
  stats_in_range (apply_fatigue i sc mc) = true.
Proof. apply clamp_stats_in_range. Qed.

Lemma train_idol_in_range (attr : stat) (gain sc mc : Z) (i : Idol) :
  stats_in_range (train_idol attr gain sc mc i) = true.
Proof. apply clamp_stats_in_range. Qed.

Lemma rest_idol_in_range (ds dm : Z) (i : Idol) :
  stats_in_range (rest_idol ds dm i) = true.
Proof. apply clamp_stats_in_range. Qed.

Lemma select_workers_valid (l : list Idol) (wc : Z) :
  1 <= wc <= Z.of_nat (length l) + 1 -> exists w, select_workers l wc = Some w.
Proof.
  intros H. unfold select_workers.
  destruct (wc =? Z.of_nat (length l) + 1) eqn:E; [eauto |].
  apply Z.eqb_neq in E. unfold py_index.
  destruct (wc - 1 <? 0) eqn:E2; [lia |].
  destruct (nth_error l (Z.to_nat (wc - 1))) eqn:E3; simpl; eauto.
  apply nth_error_None in E3. lia.
Qed.

(* ------------------------------------------------------------------ *)
(** ** The completed live, step by step *)

Lemma live_settle_Some (g g' : GroupState) (f : nat) (d : live_draws)
    (r : live_report) :
  live_settle g f d = Some (Some (g', r)) ->
  venue_cost <= funds g /\ 0 <= fans g /\
  lr_hype r = Rmax 0 (sqrt (IZR (fans g)) * 4 + reputation g * 20 + ld_hype d) /\
  lr_turnout r = live_turnout (fans g) (lr_hype r) (ld_walk_ins d) /\
  (exists fan_mult,
      live_tier (lr_satisfaction r) = (lr_review r, fan_mult, lr_rep_delta r) /\
      lr_gained_fans r = py_int (IZR (lr_turnout r) * fan_mult + IZR (ld_gain d))) /\
  lr_income r = lr_turnout r * (ticket_price + ld_merch d) /\
  lr_lost_fans r = live_lost_fans (fans g) (lr_satisfaction r) (ld_loss d) /\
  g' = mkGroupState (name g) (agency g) (ai_name g)
         (map (fun i => apply_fatigue i 6 5) (idols g)) (day g)
         (funds g + (lr_income r - venue_cost))
         (Z.max 0 (fans g + lr_gained_fans r - lr_lost_fans r))
         (reputation g + lr_rep_delta r)%R (last_live_report g).
Proof.
  unfold live_settle.
  destruct (nth_error formations f) as [formation |]; simpl; [| discriminate].
  destruct (funds g <? venue_cost) eqn:Hf; [discriminate |].
  destruct (group_perf g) as [perf |]; simpl; [| discriminate].
  destruct (group_energy g) as [energy |]; simpl; [| discriminate].
  destruct (fans g <? 0) eqn:Hn; [discriminate |].
  destruct (nth_error _ f) as [fb |]; simpl; [| discriminate].
  match goal with |- context [live_tier ?s] =>
    destruct (live_tier s) as [[rv fm] rd] eqn:Ht end.
  intros H. injection H as <- <-. simpl.
  apply Z.ltb_ge in Hf. apply Z.ltb_ge in Hn.
  repeat split; auto. exists fm. auto.
Qed.

Lemma idol_from_dict_in_range parse_int (p : value) (i : Idol) :
  idol_from_dict parse_int p = Some i -> stats_in_range i = true.
Proof.
  unfold idol_from_dict, obind.
  repeat match goal with |- context [match ?x with _ => _ end] => destruct x end;
    intros H; try discriminate.
  injection H as <-. apply clamp_stats_in_range.
Qed.

Lemma map_option_forallb {A B} (f : A -> option B) (P : B -> bool)
    (l : list A) (l' : list B) :
  (forall x y, f x = Some y -> P y = true) ->
  map_option f l = Some l' -> forallb P l' = true.
Proof.
  intros Hf. revert l'. induction l as [| x l IH]; intros l' H; simpl in H.
  - injection H as <-. reflexivity.
  - destruct (f x) as [y |] eqn:Ey; simpl in H; [| discriminate].
    destruct (map_option f l) as [ys |] eqn:Eys; simpl in H; [| discriminate].
    injection H as <-. simpl. rewrite (Hf _ _ Ey). apply IH. reflexivity.
Qed.

Lemma state_from_dict_valid parse_int parse_float (data : value) (g : GroupState) :
  _state_from_dict parse_int parse_float data = Some (Some g) -> stats_valid g = true.
Proof.
  unfold _state_from_dict.
  destruct (as_dict data) as [d |]; simpl; [| discriminate].
  destruct (py_iter _) as [ps |]; simpl; [| discriminate].
  destruct (map_option _ ps) as [l |] eqn:El; simpl; [| discriminate].
  assert (Hl : forallb stats_in_range l = true).
  { eapply map_option_forallb; [| exact El]. apply idol_from_dict_in_range. }
  destruct l as [| i l]; [discriminate |].
  unfold obind.
  repeat match goal with |- context [match ?x with _ => _ end] => destruct x end;
    intros H; try discriminate.
  injection H as <-. exact Hl.
Qed.

Lemma step_stats_valid fmt (g g' : GroupState) (a : action) (st : status) :
  stats_valid g = true -> step fmt g a = Some (st, g') -> stats_valid g' = true.
Proof.
  intros Hv. unfold stats_valid in *. destruct a as [idx attr d | wc c d | f d | d | r]; simpl.
  - unfold practice. destruct (funds g <? _).
    { intros H. injection H as _ <-. exact Hv. }
    destruct (idx =? 4).
    + intros H. injection H as _ <-. simpl.
      apply forallb_mapi_from. intros. apply train_idol_in_range.
    + destruct (py_index _ _); simpl; [| discriminate].
      intros H. injection H as _ <-. simpl.
      apply forallb_py_update; auto using train_idol_in_range.
  - unfold work. destruct (select_workers _ _) as [w |]; simpl; [| discriminate].
    destruct c; (destruct (funds g <? _); [intros H; injection H as _ <-; exact Hv |]);
      unfold obind;
      repeat match goal with |- context [match ?x with _ => _ end] => destruct x end;
      intros H; try discriminate; injection H as _ <-; simpl;
      unfold fatigue_workers; destruct (_ =? _);
      first [apply forallb_map_always | apply forallb_py_update];
      auto using apply_fatigue_in_range.
  - unfold live. destruct (live_settle g f d) as [[[g1 r] |] |] eqn:E;
      intros H; try discriminate.
    + injection H as _ <-. apply live_settle_Some in E.
      destruct E as (_ & _ & _ & _ & _ & _ & _ & ->). simpl.
      apply forallb_map_always. intros. apply apply_fatigue_in_range.
    + injection H as _ <-. exact Hv.
  - intros H. injection H as _ <-. simpl.
    apply forallb_mapi_from. intros. apply rest_idol_in_range.
  - intros H. injection H as _ <-. unfold end_day, end_day_gen.
    destruct (_ >? 0); exact Hv.
Qed.

(* ------------------------------------------------------------------ *)
(** ** Claims *)

(** C1: every stat of every idol stays in [1, 100]: if the stats are in
    range before an engine operation (practice, work, live, rest, end of
    day, or loading a snapshot), they are in range after it, whatever the
    random draws; a rest from stamina 98 thus ends at stamina <= 100. *)
Theorem stats_invariant (format_report : live_report -> string)
    (parse_int : string -> option Z) (parse_float : string -> option R)
    (g g' : GroupState) (o : engine_op) :
  stats_valid g = true ->
  engine format_report parse_int parse_float g o = Some g' ->
  stats_valid g' = true.
Proof.
  intros Hv. destruct o as [a | data]; simpl.
  - destruct (step format_report g a) as [[st g1] |] eqn:E; simpl; [| discriminate].
    intros H. injection H as <-. exact (step_stats_valid _ _ _ _ _ Hv E).
  - destruct (_state_from_dict parse_int parse_float data) as [[g1 |] |] eqn:E;
      intros H; try discriminate.
    injection H as <-. exact (state_from_dict_valid _ _ _ _ E).
Qed.

(** Witness of C1: the rest scenario of the spec, stamina 98 with the
    largest rest draws. *)
Lemma stats_invariant_witness :
  stats_valid rest_scenario = true /\
  stats_valid (rest_day rest_scenario rest_draws_max) = true.
Proof.
  split; [reflexivity |].
  apply (stats_invariant (fun _ => EmptyString) (fun _ => None) (fun _ => None)
           rest_scenario _ (OpAction (ARest rest_draws_max)));
    reflexivity.
Defined.

(** C2: if the fan count is >= 0 before an action resolver or the day
    cycle, it is >= 0 after it, for all random draws (the live's loss
    branch included). *)
Theorem fans_nonneg_invariant (format_report : live_report -> string)
    (g g' : GroupState) (a : action) (st : status) :
  0 <= fans g -> step format_report g a = Some (st, g') -> 0 <= fans g'.
Proof.
  intros Hf. destruct a as [idx attr d | wc c d | f d | d | r]; simpl.
  - unfold practice, obind.
    repeat match goal with |- context [match ?x with _ => _ end] => destruct x end;
      intros H; try discriminate; injection H as _ <-; simpl; exact Hf.
  - unfold work, obind.
    repeat match goal with |- context [match ?x with _ => _ end] => destruct x end;
      intros H; try discriminate; injection H as _ <-; simpl; lia.
  - unfold live. destruct (live_settle g f d) as [[[g1 r] |] |] eqn:E;
      intros H; try discriminate.
    + injection H as _ <-. apply live_settle_Some in E.
      destruct E as (_ & _ & _ & _ & _ & _ & _ & ->). simpl. lia.
    + injection H as _ <-. exact Hf.
  - intros H. injection H as _ <-. exact Hf.
  - intros H. injection H as _ <-. unfold end_day, end_day_gen. simpl. lia.
Qed.

(** Witness of C2: one day ending from the opening state. *)
Lemma fans_nonneg_invariant_witness :
  0 <= fans make_game /\ 0 <= fans (end_day make_game (-1)).
Proof.
  split; [simpl; lia |].
  apply (fans_nonneg_invariant (fun _ => EmptyString) make_game _ (AEndDay (-1)) Completed);
    [simpl; lia | reflexivity].
Defined.

(** C3: when the funds are below the fixed cost of the chosen paid action
    (120 solo / 220 group practice, 60 flyers, 140 guerilla live, 350
    live), the resolver reports insufficient funds and returns the state
    it was given, unchanged in every field. *)
Theorem insufficient_funds_no_op (format_report : live_report -> string)
    (g : GroupState) (a : action) (c : Z) :
  valid_choice g a -> action_cost a = Some c -> funds g < c ->
  step format_report g a = Some (InsufficientFunds, g).
Proof.
  intros Hv Hc Hlt. destruct a as [idx attr d | wc [] d | f d | d | r];
    simpl in *; try discriminate; injection Hc as <-.
  - unfold practice. rewrite (proj2 (Z.ltb_lt _ _) Hlt). reflexivity.
  - destruct (select_workers_valid _ _ Hv) as [w Hw].
    unfold work. rewrite Hw. cbn [obind].
    rewrite (proj2 (Z.ltb_lt _ _) Hlt); reflexivity.
  - destruct (select_workers_valid _ _ Hv) as [w Hw].
    unfold work. rewrite Hw. cbn [obind].
    rewrite (proj2 (Z.ltb_lt _ _) Hlt); reflexivity.
  - unfold live, live_settle.
    destruct (nth_error formations f) as [x |] eqn:E.
    + cbn [obind]. rewrite (proj2 (Z.ltb_lt _ _) Hlt). reflexivity.
    + apply nth_error_None in E. simpl in E. lia.
Qed.

(** Witness of C3: the spec's scenario, funds 50 and a solo practice. *)
Lemma insufficient_funds_no_op_witness :
  funds (set_funds make_game 50) < 120 /\
  step (fun _ => EmptyString) (set_funds make_game 50)
       (APractice 1 vocal practice_draws_1)
  = Some (InsufficientFunds, set_funds make_game 50).
Proof.
  split; [simpl; lia |].
  apply (insufficient_funds_no_op _ _ _ 120); [simpl; lia | reflexivity | simpl; lia].
Defined.

(** C4: funds stay >= 0: from funds >= 0, after any action resolver or
    the day cycle the funds are >= 0, and a paid action that completes
    had funds at least its fixed cost when it started. *)
Theorem funds_nonneg_invariant (format_report : live_report -> string)
    (g g' : GroupState) (a : action) (st : status) :
  draws_ok a -> 0 <= funds g -> step format_report g a = Some (st, g') ->
  0 <= funds g' /\
  (forall c, action_cost a = Some c -> st = Completed -> c <= funds g).
Proof.
  intros Hd Hf. destruct a as [idx attr d | wc ch d | f d | d | r]; simpl.
  - unfold practice. destruct (funds g <? _) eqn:Hlt.
    { intros H. injection H as <- <-. split; [exact Hf | discriminate]. }
    apply Z.ltb_ge in Hlt. unfold obind.
    repeat match goal with |- context [match ?x with _ => _ end] => destruct x end;
      intros H; try discriminate; injection H as <- <-; simpl;
      (split; [lia | intros c Hc _; injection Hc as <-; exact Hlt]).
  - unfold work. destruct (select_workers _ _) as [w |]; cbn [obind]; [| discriminate].
    destruct ch; destruct (funds g <? _) eqn:Hlt;
      try (intros H; injection H as <- <-; split; [exact Hf | discriminate]);
      apply Z.ltb_ge in Hlt; unfold obind;
      repeat match goal with |- context [match ?x with _ => _ end] => destruct x end;
      intros H; try discriminate; injection H as <- <-; simpl;
      (split; [lia | intros c Hc _; injection Hc as <-; exact Hlt]).
  - unfold live. destruct (live_settle g f d) as [[[g1 r] |] |] eqn:E;
      intros H; try discriminate.
    + injection H as <- <-. apply live_settle_Some in E.
      destruct E as (Hc & _ & _ & Ht & _ & Hi & _ & ->). simpl.
      destruct Hd as (_ & _ & _ & _ & Hm & _).
      assert (0 <= lr_turnout r) by (rewrite Ht; unfold live_turnout; lia).
      unfold ticket_price in Hi.
      split; [nia | intros c Hc' _; injection Hc' as <-; exact Hc].
    + injection H as <- <-. split; [exact Hf | discriminate].
  - intros H. injection H as <- <-. split; [exact Hf | discriminate].
  - intros H. injection H as <- <-. split; [| discriminate].
    unfold end_day, end_day_gen. destruct (_ >? 0); exact Hf.
Qed.

(** Witness of C4: a group practice from the opening state. *)
Lemma funds_nonneg_invariant_witness :
  0 <= funds make_game /\
  exists g' st, step (fun _ => EmptyString) make_game (APractice 4 dance practice_draws_1)
                = Some (st, g') /\ 0 <= funds g'.
Proof.
  split; [simpl; lia |].
  eexists; eexists; split; [reflexivity |].
  eapply (funds_nonneg_invariant (fun _ => EmptyString) make_game _
            (APractice 4 dance practice_draws_1)).
  - split; [simpl; lia | intros k; simpl; lia].
  - simpl; lia.
  - reflexivity.
Defined.

Lemma live_tier_cases (sat : R) : tier_matches sat (live_tier sat).
Proof.
  unfold live_tier, tier_matches.
  destruct (Rle_dec 62 sat); [left; lra |].
  destruct (Rle_dec 54 sat); [right; left; lra |].
  destruct (Rle_dec 48 sat); [right; right; left; lra |].
  right; right; right; lra.
Qed.

Lemma live_tier_fan_mult_pos (sat : R) :
  (0 < snd (fst (live_tier sat)))%R.
Proof.
  pose proof (live_tier_cases sat) as H.
  destruct (live_tier sat) as [[rv m] rd]. simpl in *. lra.
Qed.

(** A completed live exists for a concrete state and concrete draws. *)
Ltac live_completes :=
  unfold live_settle; simpl;
  match goal with |- context [live_tier ?s] =>
    destruct (live_tier s) as [[? ?] ?] end;
  eauto.

Lemma live_scenario_completes :
  exists g' r, live_settle live_scenario 0 live_draws_low = Some (Some (g', r)).
Proof. live_completes. Qed.

(** C5: the live's outcome tier: for every real satisfaction exactly one
    of the bands >= 62 / [54, 62) / [48, 54) / < 48 applies, selecting
    the fan multiplier 0.22 / 0.14 / 0.08 / 0.04 and the reputation delta
    +0.10 / +0.05 / +0.02 / -0.01; and a completed live uses the selected
    multiplier for its fan gain and the selected delta for its reputation
    update. *)
Theorem live_tier_selection :
  (forall sat : R, tier_matches sat (live_tier sat)) /\
  (forall (g g' : GroupState) (f : nat) (d : live_draws) (r : live_report),
      live_settle g f d = Some (Some (g', r)) ->
      exists review fan_mult,
        live_tier (lr_satisfaction r) = (review, fan_mult, lr_rep_delta r) /\
        tier_matches (lr_satisfaction r) (review, fan_mult, lr_rep_delta r) /\
        reputation g' = (reputation g + lr_rep_delta r)%R /\
        lr_gained_fans r = py_int (IZR (lr_turnout r) * fan_mult + IZR (ld_gain d))).
Proof.
  split; [exact live_tier_cases |].
  intros g g' f d r H. apply live_settle_Some in H.
  destruct H as (_ & _ & _ & _ & (fm & Ht & Hg) & _ & _ & ->).
  exists (lr_review r), fm. repeat split; auto.
  rewrite <- Ht. apply live_tier_cases.
Qed.

(** Witness of C5: a live from the opening state with one fan. *)
Lemma live_tier_selection_witness :
  exists g' r, live_settle live_scenario 0 live_draws_low = Some (Some (g', r)) /\
    exists review fan_mult,
      live_tier (lr_satisfaction r) = (review, fan_mult, lr_rep_delta r) /\
      reputation g' = (reputation live_scenario + lr_rep_delta r)%R.
Proof.
  destruct live_scenario_completes as (g' & r & H).
  exists g', r. split; [exact H |].
  destruct (proj2 live_tier_selection _ _ _ _ _ H) as (rv & fm & H1 & _ & H3 & _).
  exists rv, fm. split; assumption.
Defined.

Lemma py_int_of_bounds (x : R) (z : Z) :
  (0 <= x)%R -> (IZR z <= x < IZR z + 1)%R -> py_int x = z.
Proof.
  intros H0 Hz. unfold py_int. destruct (Rle_dec 0 x); [| lra].
  symmetry. apply Int_part_spec. lra.
Qed.

(** C6, as the spec words it, fails: with one fan, no reputation, a hype
    draw of 0 and 15 walk-ins, the hype is 4, the real-valued expected
    turnout is 1 * (0.18 + 0.02) + 15 = 15.2, but the turnout is 15. *)
Lemma live_turnout_counterexample :
  exists g' r, live_settle live_scenario 0 live_draws_low = Some (Some (g', r)) /\
    IZR (lr_turnout r)
    <> spec_turnout (fans live_scenario) (lr_hype r) (ld_walk_ins live_draws_low).
Proof.
  destruct live_scenario_completes as (g' & r & H).
  exists g', r. split; [exact H |].
  apply live_settle_Some in H. destruct H as (_ & _ & Hh & Ht & _).
  simpl in Hh, Ht |- *. rewrite sqrt_1 in Hh.
  rewrite Rmax_right in Hh by lra.
  assert (Hh4 : lr_hype r = 4%R) by lra.
  rewrite Ht, Hh4. unfold live_turnout, spec_turnout.
  rewrite !(Rmin_right 0.22 (4 / 200)) by lra.
  rewrite (py_int_of_bounds _ 15) by lra.
  unfold capacity. change (Z.max 0 (Z.min 300 15)) with 15.
  rewrite (Rmin_right 300) by lra. rewrite Rmax_right by lra. intros Heq. lra.
Qed.

(** C6 (amended): the live's turnout is
    [clamp(int(fans * (0.18 + min(0.22, hype / 200)) + walkIns), 0, 300)]:
    the expected turnout is truncated to an integer before the clamp, and
    the turnout is an integer in [0, 300] whatever fans and hype. *)
Theorem live_turnout_bounds :
  (forall (fans0 : Z) (hype : R) (walk_ins : Z),
      0 <= live_turnout fans0 hype walk_ins <= capacity) /\
  (forall (g g' : GroupState) (f : nat) (d : live_draws) (r : live_report),
      live_settle g f d = Some (Some (g', r)) ->
      lr_hype r = Rmax 0 (sqrt (IZR (fans g)) * 4 + reputation g * 20 + ld_hype d) /\
      lr_turnout r
      = Z.max 0 (Z.min 300 (py_int (IZR (fans g) * (0.18 + Rmin 0.22 (lr_hype r / 200))
                                    + IZR (ld_walk_ins d)))) /\
      0 <= lr_turnout r <= 300).
Proof.
  split.
  - intros. unfold live_turnout, capacity. lia.
  - intros g g' f d r H. apply live_settle_Some in H.
    destruct H as (_ & _ & Hh & Ht & _).
    rewrite Ht. unfold live_turnout, capacity. repeat split; auto; lia.
Qed.

(** Witness of C6 (amended): the live of the counterexample. *)
Lemma live_turnout_bounds_witness :
  exists g' r, live_settle live_scenario 0 live_draws_low = Some (Some (g', r)) /\
    0 <= lr_turnout r <= 300.
Proof.
  destruct live_scenario_completes as (g' & r & H).
  exists g', r. split; [exact H |].
  apply (proj2 live_turnout_bounds _ _ _ _ _ H).
Defined.

Lemma idol_roundtrip parse_int (i : Idol) :
  stats_in_range i = true -> idol_from_dict parse_int (idol_to_dict i) = Some i.
Proof.
  destruct i as [n a r b [v d vi s m]]. intros H.
  unfold stats_in_range in H. simpl in H.
  rewrite !Bool.andb_true_iff, !Z.leb_le in H.
  destruct H as (H1 & H2 & H3 & H4 & H5 & _).
  unfold idol_to_dict, idol_from_dict. simpl.
  unfold clamp_stats. simpl. rewrite !clamp_id by lia. reflexivity.
Qed.

Lemma idols_roundtrip parse_int (l : list Idol) :
  forallb stats_in_range l = true ->
  map_option (idol_from_dict parse_int) (map idol_to_dict l) = Some l.
Proof.
  induction l as [| i l IH]; intros H; [reflexivity |].
  simpl in H. apply andb_prop in H. destruct H as [Hi Hl].
  cbn [map map_option]. rewrite (idol_roundtrip _ _ Hi). cbn [obind].
  rewrite (IH Hl). reflexivity.
Qed.

(** C7: a state whose stats are in [1, 100] and which has idols (the
    spec's roster has exactly three) comes back equal, field by field,
    from [_state_from_dict (_state_to_dict state)]. *)
Theorem state_roundtrip (parse_int : string -> option Z)
    (parse_float : string -> option R) (g : GroupState) :
  stats_valid g = true -> idols g <> [] ->
  _state_from_dict parse_int parse_float (_state_to_dict g) = Some (Some g).
Proof.
  intros Hv Hne. destruct g as [n ag ai l dy fu fa re lr]. simpl in *.
  unfold _state_from_dict, _state_to_dict. simpl.
  rewrite (idols_roundtrip _ _ Hv). simpl.
  destruct l as [| i l]; [congruence |]. reflexivity.
Qed.

(** Witness of C7: the opening state. *)
Lemma state_roundtrip_witness :
  stats_valid make_game = true /\ idols make_game <> [] /\
  _state_from_dict (fun _ => None) (fun _ => None) (_state_to_dict make_game)
  = Some (Some make_game).
Proof.
  split; [reflexivity |]. split; [simpl; discriminate |].
  apply state_roundtrip; [reflexivity | simpl; discriminate].
Defined.

(** C8: on a state with fans >= 0 (the spec's rule, which every
    operation keeps), the day cycle increments the day by exactly 1, adds
    drift = floor(reputation * 2 + r) to the fans when it is > 0 and
    leaves them unchanged when it is <= 0, for every draw r, and changes
    no other field, so it never decreases the fans.  The sum is the value
    the float expression evaluates to, whatever its rounding ([end_day]
    is the exact instance); the code's [int()] of it agrees with floor
    whenever either is > 0. *)
Theorem end_day_spec (drift_sum : R -> Z -> R) (g : GroupState) (r : Z) :
  0 <= fans g ->
  let drift := Int_part (drift_sum (reputation g) r) in
  end_day_gen drift_sum g r
  = mkGroupState (name g) (agency g) (ai_name g) (idols g) (day g + 1) (funds g)
      (if 0 <? drift then fans g + drift else fans g)
      (reputation g) (last_live_report g)
  /\ fans g <= fans (end_day_gen drift_sum g r).
Proof.
  intros Hf drift. unfold end_day_gen. simpl.
  destruct (py_int_floor_pos (drift_sum (reputation g) r)) as [Hb He].
  rewrite Z.gtb_ltb, Hb. fold drift in He |- *.
  destruct (0 <? drift) eqn:E.
  - apply Z.ltb_lt in E. rewrite (He E). simpl.
    rewrite Z.max_r by lia. split; [reflexivity | lia].
  - simpl. rewrite Z.max_r by lia. split; [reflexivity | lia].
Qed.

(** Witness of C8: the spec's scenario, reputation -1 and a draw of -1
    (the sum -3 is exact in floats): the fans stay as they are. *)
Lemma end_day_spec_witness :
  0 <= fans (set_reputation make_game (-1)) /\
  fans (end_day (set_reputation make_game (-1)) (-1)) = 40.
Proof.
  split; [simpl; lia |].
  destruct (end_day_spec (fun rep r => rep * 2 + IZR r)%R
              (set_reputation make_game (-1)) (-1)) as [H _];
    [simpl; lia |].
  unfold end_day. rewrite H. simpl.
  replace (-1 * 2 + -1)%R with (IZR (-3)) by lra.
  rewrite Int_part_IZR. reflexivity.
Defined.

Lemma live_turnout_lower (fans0 : Z) (hype : R) (walk_ins : Z) :
  0 <= fans0 -> (0 <= hype)%R -> 15 <= walk_ins -> 15 <= live_turnout fans0 hype walk_ins.
Proof.
  intros Hf Hh Hw. unfold live_turnout, capacity.
  assert (15 <= py_int (IZR fans0 * (0.18 + Rmin 0.22 (hype / 200)) + IZR walk_ins)).
  { apply py_int_lower.
    apply IZR_le in Hf. apply IZR_le in Hw.
    assert (0 <= Rmin 0.22 (hype / 200))%R by (apply Rmin_glb; lra).
    assert (0 <= IZR fans0 * (0.18 + Rmin 0.22 (hype / 200)))%R
      by (apply Rmult_le_pos; lra).
    lra. }
  lia.
Qed.

(** C9: a live that runs to completion (it passed the funds check, so
    funds >= 350, and it had fans >= 0) has a turnout of at least 15
    (the walk-ins alone), an income of at least 15 * 440 = 6600, and
    ends with strictly more funds than it started with. *)
Theorem live_profit (g g' : GroupState) (f : nat) (d : live_draws) (r : live_report) :
  live_draws_ok d -> live_settle g f d = Some (Some (g', r)) ->
  venue_cost <= funds g /\ 0 <= fans g /\
  15 <= lr_turnout r /\ 6600 <= lr_income r /\ funds g < funds g'.
Proof.
  intros Hd H. apply live_settle_Some in H.
  destruct H as (Hc & Hf & Hh & Ht & _ & Hi & _ & ->). simpl.
  destruct Hd as (_ & Hw & _ & _ & Hm & _).
  assert (0 <= lr_hype r)%R by (rewrite Hh; apply Rmax_l).
  assert (15 <= lr_turnout r) by (rewrite Ht; apply live_turnout_lower; [lia | assumption | lia]).
  unfold ticket_price, venue_cost in *.
  assert (6600 <= lr_income r) by nia.
  repeat split; lia.
Qed.

(** Witness of C9: the live from the opening state with one fan. *)
Lemma live_profit_witness :
  live_draws_ok live_draws_low /\
  exists g' r, live_settle live_scenario 0 live_draws_low = Some (Some (g', r)) /\
    funds live_scenario < funds g'.
Proof.
  assert (Hd : live_draws_ok live_draws_low) by (unfold live_draws_ok; simpl; repeat split; (lra || lia)).
  split; [exact Hd |].
  destruct live_scenario_completes as (g' & r & H).
  exists g', r. split; [exact H |].
  apply (live_profit _ _ _ _ _ Hd H).
Defined.

Lemma live_fans_loss (g g1 : GroupState) (f : nat) (d : live_draws) (r : live_report) :
  live_draws_ok d -> live_settle g f d = Some (Some (g1, r)) ->
  fans g1 < fans g ->
  (lr_satisfaction r < 46)%R /\
  (IZR (fans g - fans g1) <= Rmin (IZR (fans g) * 0.03) 8)%R.
Proof.
  intros Hd H Hlt. apply live_settle_Some in H.
  destruct H as (_ & Hf & _ & Ht & (fm & Htier & Hg) & _ & Hl & ->).
  simpl in Hlt |- *.
  destruct Hd as (_ & _ & _ & _ & _ & Hgain & Hloss).
  assert (Hfm : (0 < fm)%R).
  { pose proof (live_tier_fan_mult_pos (lr_satisfaction r)) as Hp.
    rewrite Htier in Hp. exact Hp. }
  assert (Htn : 0 <= lr_turnout r) by (rewrite Ht; unfold live_turnout; lia).
  assert (Hgn : 0 <= lr_gained_fans r).
  { rewrite Hg. apply py_int_nonneg.
    apply IZR_le in Htn. assert (Hg2 : (0 <= IZR (ld_gain d))%R) by (apply IZR_le; lia).
    assert (0 <= IZR (lr_turnout r) * fm)%R by (apply Rmult_le_pos; lra).
    lra. }
  unfold live_lost_fans in Hl.
  destruct (Rlt_dec (lr_satisfaction r) 46) as [Hs | Hs]; [| rewrite Hl in Hlt; lia].
  split; [exact Hs |].
  set (m := Rmin (IZR (fans g) * 0.03) (IZR (ld_loss d))) in Hl.
  assert (Hm0 : (0 <= m)%R).
  { apply Rmin_glb; apply IZR_le in Hf; [lra |]. apply IZR_le. lia. }
  assert (Hlm : (IZR (lr_lost_fans r) <= m)%R) by (rewrite Hl; apply py_int_upper; exact Hm0).
  assert (Hm8 : (m <= Rmin (IZR (fans g) * 0.03) 8)%R).
  { apply Rle_min_compat_l. apply IZR_le. lia. }
  assert (Hdec : fans g - Z.max 0 (fans g + lr_gained_fans r - lr_lost_fans r)
                 <= lr_lost_fans r) by lia.
  apply IZR_le in Hdec. lra.
Qed.

Lemma end_day_fans_nondecreasing (g : GroupState) (r : Z) :
  fans g <= fans (end_day g r).
Proof.
  unfold end_day, end_day_gen. destruct (_ >? 0) eqn:E; simpl.
  - simpl in E. apply Z.gtb_lt in E. lia.
  - lia.
Qed.

(** C10: practice, flyers, guerilla live, rest and the day cycle never
    decrease the fan count, for all random draws; a decrease can only
    come from a completed live whose satisfaction is < 46, and it is at
    most min(3% of the fans before the live, 8). *)
Theorem fans_only_live_decreases (format_report : live_report -> string)
    (g g' : GroupState) (a : action) (st : status) :
  draws_ok a -> step format_report g a = Some (st, g') ->
  ((exists f d, a = ALive f d) \/ fans g <= fans g') /\
  (fans g' < fans g ->
     exists f d g1 r, a = ALive f d /\ live_settle g f d = Some (Some (g1, r)) /\
       fans g1 = fans g' /\ (lr_satisfaction r < 46)%R /\
       (IZR (fans g - fans g') <= Rmin (IZR (fans g) * 0.03) 8)%R).
Proof.
  intros Hd. destruct a as [idx attr d | wc c d | f d | d | r]; simpl.
  - unfold practice, obind.
    repeat match goal with |- context [match ?x with _ => _ end] => destruct x end;
      intros H; try discriminate; injection H as _ <-; simpl;
      (split; [right; lia | lia]).
  - unfold work, obind.
    repeat match goal with |- context [match ?x with _ => _ end] => destruct x end;
      intros H; try discriminate; injection H as _ <-; simpl;
      (split; [right; lia | lia]).
  - unfold live. destruct (live_settle g f d) as [[[g1 r] |] |] eqn:E;
      intros H; try discriminate.
    + injection H as _ <-. split; [left; eauto |].
      simpl. intros Hlt.
      destruct (live_fans_loss _ _ _ _ _ Hd E Hlt) as [Hs Hb].
      exists f, d, g1, r. repeat split; auto.
    + injection H as _ <-. split; [left; eauto | lia].
  - intros H. injection H as _ <-. simpl. split; [right; lia | lia].
  - intros H. injection H as _ <-. pose proof (end_day_fans_nondecreasing g r).
    split; [right; lia | lia].
Qed.

(** Witness of C10: one day ending from the opening state. *)
Lemma fans_only_live_decreases_witness :
  draws_ok (AEndDay 0) /\ fans make_game <= fans (end_day make_game 0).
Proof.
  assert (Hd : draws_ok (AEndDay 0)) by (simpl; lia).
  split; [exact Hd |].
  destruct (fans_only_live_decreases (fun _ => EmptyString) make_game
              (end_day make_game 0) (AEndDay 0) Completed Hd eq_refl)
    as [[(f & d & Hf) | Hle] _]; [discriminate | exact Hle].
Defined.

(* ------------------------------------------------------------------ *)
(** ** Further properties of the code *)

Lemma nth_error_mapi_from {A B} (f : nat -> A -> B) (k n : nat) (l : list A) :
  nth_error (mapi_from f k l) n = option_map (f (k + n)%nat) (nth_error l n).
Proof.
  revert k n. induction l as [| x l IH]; intros k n; destruct n; simpl; auto.
  - rewrite Nat.add_0_r. reflexivity.
  - rewrite IH. f_equal. f_equal. lia.
Qed.

Lemma nth_error_update_nth_ne {A} (f : A -> A) (n j : nat) (l : list A) :
  n <> j -> nth_error (update_nth n f l) j = nth_error l j.
Proof.
  revert n j. induction l as [| x l IH]; intros n j Hne; destruct n, j; simpl; auto.
  - congruence.
Qed.

Lemma nth_error_update_nth_eq {A} (f : A -> A) (n : nat) (l : list A) :
  nth_error (update_nth n f l) n = option_map f (nth_error l n).
Proof.
  revert n. induction l as [| x l IH]; intros n; destruct n; simpl; auto.
Qed.

Section IdentLemmas.

Context {A B : Type} (h : A -> B).

Lemma map_mapi_from_preserve (f : nat -> A -> A) (k : nat) (l : list A) :
  (forall k x, h (f k x) = h x) -> map h (mapi_from f k l) = map h l.
Proof.
  intros Hf. revert k. induction l as [| x l IH]; intros k; simpl; auto.
  rewrite Hf, IH. reflexivity.
Qed.

Lemma map_update_nth_preserve (f : A -> A) (n : nat) (l : list A) :
  (forall x, h (f x) = h x) -> map h (update_nth n f l) = map h l.
Proof.
  intros Hf. revert n. induction l as [| x l IH]; intros n; destruct n; simpl;
    rewrite ?Hf, ?IH; auto.
Qed.

Lemma map_map_preserve (f : A -> A) (l : list A) :
  (forall x, h (f x) = h x) -> map h (map f l) = map h l.
Proof.
  intros Hf. induction l as [| x l IH]; simpl; rewrite ?Hf, ?IH; auto.
Qed.

End IdentLemmas.

Lemma clamp_stats_ident (i : Idol) : idol_ident (clamp_stats i) = idol_ident i.
Proof. destruct i; reflexivity. Qed.

Lemma apply_fatigue_ident (i : Idol) (sc mc : Z) :
  idol_ident (apply_fatigue i sc mc) = idol_ident i.
Proof. destruct i; reflexivity. Qed.

Lemma train_idol_ident (attr : stat) (gain sc mc : Z) (i : Idol) :
  idol_ident (train_idol attr gain sc mc i) = idol_ident i.
Proof. destruct i; reflexivity. Qed.

Lemma rest_idol_ident (ds dm : Z) (i : Idol) :
  idol_ident (rest_idol ds dm i) = idol_ident i.
Proof. destruct i; reflexivity. Qed.

Lemma clamp_stats_get (i : Idol) (k : stat) :
  get_stat (idol_stats (clamp_stats i)) k = clamp (get_stat (idol_stats i) k).
Proof. destruct i as [n a r b [v d vi s m]]; destruct k; reflexivity. Qed.

Lemma in_range_bounds (i : Idol) :
  stats_in_range i = true -> forall k, 1 <= get_stat (idol_stats i) k <= 100.
Proof.
  destruct i as [n a r b [v d vi s m]]. unfold stats_in_range. simpl.
  rewrite !Bool.andb_true_iff, !Z.leb_le. intros (H1 & H2 & H3 & H4 & H5 & _).
  intros []; simpl; lia.
Qed.

Lemma apply_fatigue_stats (i : Idol) (sc mc : Z) :
  stats_in_range i = true -> 0 <= sc -> 0 <= mc ->
  let s := idol_stats i in
  let s' := idol_stats (apply_fatigue i sc mc) in
  st_stamina s' = Z.max 1 (st_stamina s - sc) /\
  st_mental s' = Z.max 1 (st_mental s - mc) /\
  st_vocal s' = st_vocal s /\ st_dance s' = st_dance s /\
  st_visual s' = st_visual s.
Proof.
  intros H Hs Hm. pose proof (in_range_bounds i H) as B.
  destruct i as [n a r b [v d vi s m]].
  pose proof (B vocal); pose proof (B dance); pose proof (B visual);
    pose proof (B stamina); pose proof (B mental). simpl in *.
  unfold clamp. repeat split; lia.
Qed.

Lemma choose_int_some (lo hi : Z) (ab ac : bool) (ins rest : list string)
    (r : option Z) :
  choose_int lo hi ab ac ins = Some (r, rest) ->
  match r with Some v => lo <= v <= hi | None => ab = true \/ ac = true end.
Proof.
  induction ins as [| line ins IH]; simpl; [discriminate |].
  destruct (ab && _) eqn:E1.
  { intros H. injection H as <- _. apply andb_prop in E1. tauto. }
  destruct (ac && _) eqn:E2.
  { intros H. injection H as <- _. apply andb_prop in E2. tauto. }
  destruct (py_isdigit _ && _ && _) eqn:E3; [| exact IH].
  intros H. injection H as <- _.
  rewrite !Bool.andb_true_iff, !Z.leb_le in E3. lia.
Qed.

Lemma live_completed_inv fmt (g g' : GroupState) (f : nat) (d : live_draws) :
  live fmt g f d = Some (Completed, g') ->
  exists g1 r, live_settle g f d = Some (Some (g1, r)) /\
    g' = set_last_live_report g1 (VStr (fmt r)).
Proof.
  unfold live. destruct (live_settle g f d) as [[[g1 r] |] |];
    intros H; try discriminate.
  injection H as <-. eauto.
Qed.

(* ------------------------------------------------------------------ *)
(** ** Extra properties *)

(** X1: a line [choose_int] accepts is a number in [lo, hi]; it returns
    [None] (a blank or [0] answer) only when [allow_blank] or
    [allow_cancel] is set, so the main menu's [choose_int("> ", 0, 7)],
    when it returns, returns a number in [0, 7]. *)
Theorem choose_int_result (lo hi : Z) (allow_blank allow_cancel : bool)
    (inputs rest : list string) (r : option Z) :
  choose_int lo hi allow_blank allow_cancel inputs = Some (r, rest) ->
  match r with
  | Some v => lo <= v <= hi
  | None => allow_blank = true \/ allow_cancel = true
  end.
Proof. apply choose_int_some. Qed.

Lemma choose_int_result_witness :
  choose_int 0 7 false false ["abc"; "9"; " 07 "] = Some (Some 7, []) /\
  0 <= 7 <= 7.
Proof.
  split; [vm_compute; reflexivity |].
  exact (choose_int_result 0 7 false false ["abc"; "9"; " 07 "] [] (Some 7)
           ltac:(vm_compute; reflexivity)).
Defined.

(** X2: [choose_from] returns a 0-based index into [options]
    ([0 <= i < len(options)]), and [None] only when [allow_cancel]. *)
Theorem choose_from_index {A} (options : list A) (allow_cancel : bool)
    (inputs rest : list string) (r : option Z) :
  choose_from options allow_cancel inputs = Some (r, rest) ->
  match r with
  | Some i => 0 <= i < Z.of_nat (length options)
  | None => allow_cancel = true
  end.
Proof.
  unfold choose_from.
  destruct (choose_int 1 _ false allow_cancel inputs) as [[[v |] rest'] |] eqn:E;
    intros H; try discriminate; injection H as <- _;
    apply choose_int_some in E; [lia | destruct E; [discriminate | assumption]].
Qed.

Lemma choose_from_index_witness :
  choose_from formations true ["5"; "3"] = Some (Some 2, []) /\
  0 <= 2 < Z.of_nat (length formations).
Proof.
  split; [vm_compute; reflexivity |].
  exact (choose_from_index formations true ["5"; "3"] [] (Some 2)
           ltac:(vm_compute; reflexivity)).
Defined.

(** X3: [Idol.clamp_stats] sets each stat to [clamp(v)], changes nothing
    else, and clamping twice is clamping once. *)
Theorem clamp_stats_spec (i : Idol) :
  (forall k, get_stat (idol_stats (clamp_stats i)) k
             = Z.max 1 (Z.min 100 (get_stat (idol_stats i) k))) /\
  idol_ident (clamp_stats i) = idol_ident i /\
  clamp_stats (clamp_stats i) = clamp_stats i.
Proof.
  split; [apply clamp_stats_get |]. split; [apply clamp_stats_ident |].
  apply clamp_stats_id, clamp_stats_in_range.
Qed.

(** X4: on an idol whose stats are in [1, 100], [apply_fatigue] with
    non-negative costs lowers stamina and mental by the costs, never below
    1, and leaves vocal, dance and visual as they are. *)
Theorem apply_fatigue_spec (i : Idol) (stamina_cost mental_cost : Z) :
  stats_in_range i = true -> 0 <= stamina_cost -> 0 <= mental_cost ->
  let s := idol_stats i in
  let s' := idol_stats (apply_fatigue i stamina_cost mental_cost) in
  st_stamina s' = Z.max 1 (st_stamina s - stamina_cost) /\
  st_mental s' = Z.max 1 (st_mental s - mental_cost) /\
  st_vocal s' = st_vocal s /\ st_dance s' = st_dance s /\
  st_visual s' = st_visual s.
Proof. apply apply_fatigue_stats. Qed.

Lemma apply_fatigue_spec_witness :
  let i := mkIdol (VStr "Aoi Kisaragi") 15 (VStr "") (VStr "")
             (mkStats 46 44 48 52 3) in
  stats_in_range i = true /\
  st_stamina (idol_stats (apply_fatigue i 6 5)) = 46 /\
  st_mental (idol_stats (apply_fatigue i 6 5)) = 1.
Proof.
  intros i. split; [reflexivity |].
  destruct (apply_fatigue_spec i 6 5 eq_refl ltac:(lia) ltac:(lia))
    as (H1 & H2 & _).
  split; [rewrite H1 | rewrite H2]; reflexivity.
Defined.

(** X5: no action renames the group, its agency or its AI, adds, drops or
    reorders an idol, or changes an idol's name, age, role or blurb: only
    stats and the group's counters move. *)
Theorem step_preserves_identity (format_report : live_report -> string)
    (g g' : GroupState) (a : action) (st : status) :
  step format_report g a = Some (st, g') ->
  map idol_ident (idols g') = map idol_ident (idols g) /\
  name g' = name g /\ agency g' = agency g /\ ai_name g' = ai_name g.
Proof.
  destruct a as [idx attr d | wc c d | f d | d | r]; simpl.
  - unfold practice. destruct (funds g <? _).
    { intros H. injection H as _ <-. auto. }
    destruct (idx =? 4).
    + intros H. injection H as _ <-. simpl. repeat split.
      apply map_mapi_from_preserve. intros. apply train_idol_ident.
    + destruct (py_index _ _); simpl; [| discriminate].
      intros H. injection H as _ <-. simpl. repeat split.
      unfold py_update. destruct (_ <? 0);
        apply map_update_nth_preserve; intros; apply train_idol_ident.
  - unfold work. destruct (select_workers _ _) as [w |]; simpl; [| discriminate].
    destruct c; (destruct (funds g <? _); [intros H; injection H as _ <-; auto |]);
      unfold obind;
      repeat match goal with |- context [match ?x with _ => _ end] => destruct x end;
      intros H; try discriminate; injection H as _ <-; simpl; repeat split;
      unfold fatigue_workers, py_update;
      repeat match goal with |- context [if ?x then _ else _] => destruct x end;
      first [apply map_map_preserve | apply map_update_nth_preserve];
      intros; apply apply_fatigue_ident.
  - unfold live. destruct (live_settle g f d) as [[[g1 r] |] |] eqn:E;
      intros H; try discriminate.
    + injection H as _ <-. apply live_settle_Some in E.
      destruct E as (_ & _ & _ & _ & _ & _ & _ & ->). simpl. repeat split.
      apply map_map_preserve. intros. apply apply_fatigue_ident.
    + injection H as _ <-. auto.
  - intros H. injection H as _ <-. simpl. repeat split.
    apply map_mapi_from_preserve. intros. apply rest_idol_ident.
  - intros H. injection H as _ <-. unfold end_day, end_day_gen.
    destruct (_ >? 0); simpl; auto.
Qed.

Lemma step_preserves_identity_witness :
  let g' := rest_day make_game rest_draws_max in
  map idol_ident (idols g') = map idol_ident (idols make_game) /\
  name g' = name make_game.
Proof.
  intros g'.
  destruct (step_preserves_identity (fun _ => EmptyString) make_game g'
              (ARest rest_draws_max) Completed eq_refl) as (H1 & H2 & _).
  split; assumption.
Defined.

(** X6: what a completed action does to the funds: practice, flyers and a
    guerilla live take exactly their cost (120 solo, 220 group, 60, 140),
    rest and the end of the day leave the funds as they are, and a live
    adds its ticket and merch income, turnout * (400 + merch per head)
    with a turnout in [0, 300], minus the venue cost 350. *)
Theorem step_funds (format_report : live_report -> string)
    (g g' : GroupState) (a : action) :
  step format_report g a = Some (Completed, g') ->
  match a with
  | ALive _ d =>
      exists turnout, 0 <= turnout <= capacity /\
        funds g' = funds g + turnout * (ticket_price + ld_merch d) - venue_cost
  | _ => funds g' = funds g - match action_cost a with Some c => c | None => 0 end
  end.
Proof.
  destruct a as [idx attr d | wc c d | f d | d | r]; cbn [step action_cost].
  - unfold practice. destruct (funds g <? _); [discriminate |].
    destruct (idx =? 4).
    + intros H. injection H as <-. reflexivity.
    + destruct (py_index _ _); simpl; [| discriminate].
      intros H. injection H as <-. reflexivity.
  - unfold work. destruct (select_workers _ _) as [w |]; simpl; [| discriminate].
    destruct c; (destruct (funds g <? _); [discriminate |]);
      unfold obind;
      repeat match goal with |- context [match ?x with _ => _ end] => destruct x end;
      intros H; try discriminate; injection H as <-; reflexivity.
  - intros H. apply live_completed_inv in H. destruct H as (g1 & r & E & ->).
    apply live_settle_Some in E.
    destruct E as (_ & _ & _ & Ht & _ & Hi & _ & ->).
    exists (lr_turnout r). cbn [funds set_last_live_report]. rewrite Hi. split; [| lia].
    rewrite Ht. unfold live_turnout, capacity. lia.
  - intros H. injection H as <-. simpl. lia.
  - intros H. injection H as <-. unfold end_day, end_day_gen.
    destruct (_ >? 0); simpl; lia.
Qed.

Lemma step_funds_witness :
  funds (snd (match practice make_game 1 vocal practice_draws_1 with
              | Some p => p | None => (InsufficientFunds, make_game) end))
  = funds make_game - 120.
Proof.
  exact (step_funds (fun _ => EmptyString) make_game _
           (APractice 1 vocal practice_draws_1) eq_refl).
Defined.

(** X7: the day counter moves only at the end of the day, by exactly one,
    and the stored live report changes only when a live is performed: a
    live stopped by the funds check leaves it as it is, and a completed
    live stores the rendered report of that very show. *)
Theorem step_day_report (format_report : live_report -> string)
    (g g' : GroupState) (a : action) (st : status) :
  step format_report g a = Some (st, g') ->
  day g' = (match a with AEndDay _ => day g + 1 | _ => day g end) /\
  match a with
  | ALive f d =>
      match st with
      | Completed =>
          exists g1 r, live_settle g f d = Some (Some (g1, r)) /\
            last_live_report g' = VStr (format_report r)
      | InsufficientFunds => last_live_report g' = last_live_report g
      end
  | _ => last_live_report g' = last_live_report g
  end.
Proof.
  destruct a as [idx attr d | wc c d | f d | d | r]; simpl.
  - unfold practice. destruct (funds g <? _).
    { intros H. injection H as _ <-. auto. }
    destruct (idx =? 4).
    + intros H. injection H as _ <-. auto.
    + destruct (py_index _ _); simpl; [| discriminate].
      intros H. injection H as _ <-. auto.
  - unfold work. destruct (select_workers _ _) as [w |]; simpl; [| discriminate].
    destruct c; (destruct (funds g <? _); [intros H; injection H as _ <-; auto |]);
      unfold obind;
      repeat match goal with |- context [match ?x with _ => _ end] => destruct x end;
      intros H; try discriminate; injection H as _ <-; auto.
  - unfold live. destruct (live_settle g f d) as [[[g1 r] |] |] eqn:E;
      intros H; try discriminate.
    + injection H as <- <-. pose proof E as E'. apply live_settle_Some in E'.
      destruct E' as (_ & _ & _ & _ & _ & _ & _ & ->). simpl.
      split; [reflexivity |]. exists (mkGroupState (name g) (agency g) (ai_name g)
        (map (fun i => apply_fatigue i 6 5) (idols g)) (day g)
        (funds g + (lr_income r - venue_cost))
        (Z.max 0 (fans g + lr_gained_fans r - lr_lost_fans r))
        (reputation g + lr_rep_delta r)%R (last_live_report g)), r. auto.
    + injection H as <- <-. auto.
  - intros H. injection H as _ <-. auto.
  - intros H. injection H as _ <-. unfold end_day, end_day_gen.
    destruct (_ >? 0); simpl; auto.
Qed.

Lemma step_day_report_witness :
  day (end_day make_game 0) = day make_game + 1 /\
  live (fun _ => EmptyString) (set_funds make_game 0) 0 live_draws_low
  = Some (InsufficientFunds, set_funds make_game 0) /\
  last_live_report (set_funds make_game 0) = last_live_report (set_funds make_game 0).
Proof.
  split; [| split; [reflexivity |]].
  - exact (proj1 (step_day_report (fun _ => EmptyString) make_game _
                    (AEndDay 0) Completed eq_refl)).
  - exact (proj2 (step_day_report (fun _ => EmptyString) (set_funds make_game 0) _
                    (ALive 0 live_draws_low) InsufficientFunds eq_refl)).
Defined.

(** X8: one training session ([stats[attr] += gain], then
    [apply_fatigue(sc, mc)], then [clamp_stats]) sets every stat [k] to
    [clamp(v + gain if k == attr else v, minus the fatigue cost of k)]:
    the gain and the fatigue are added before the one clamp that counts,
    so a stamina gain above 100 absorbs the fatigue of a group stamina
    practice, and a gain smaller than the fatigue lowers the stat. *)
Theorem train_idol_spec (attr : stat) (gain sc mc : Z) (i : Idol) (k : stat) :
  get_stat (idol_stats (train_idol attr gain sc mc i)) k
  = clamp (get_stat (idol_stats i) k + train_delta attr gain sc mc k).
Proof.
  destruct i as [n a r b [v d vi s m]].
  destruct attr, k; unfold train_idol, apply_fatigue, clamp_stats, train_delta, clamp;
    simpl; lia.
Qed.

Lemma py_index_nonneg {A} (l : list A) (i : Z) :
  0 <= i -> py_index l i = nth_error l (Z.to_nat i).
Proof. intros H. unfold py_index. destruct (i <? 0) eqn:E; [lia | reflexivity]. Qed.

Lemma py_update_nonneg {A} (l : list A) (i : Z) (f : A -> A) :
  0 <= i -> py_update l i f = update_nth (Z.to_nat i) f l.
Proof. intros H. unfold py_update. destruct (i <? 0) eqn:E; [lia | reflexivity]. Qed.

Lemma nth_error_update_nth {A} (f : A -> A) (n j : nat) (l : list A) :
  nth_error (update_nth n f l) j
  = if (j =? n)%nat then option_map f (nth_error l j) else nth_error l j.
Proof.
  destruct (Nat.eqb_spec j n) as [-> | Hne].
  - apply nth_error_update_nth_eq.
  - apply nth_error_update_nth_ne. congruence.
Qed.

(** X9: a completed practice changes no fan count, raises the reputation
    by 0.01 (solo) or 0.03 (group, choice 4), and trains exactly the idols
    it names: in solo practice the idol at [idx - 1] with gain
    [base + extra] and fatigue (3, 2), every other idol left as it is; in
    group practice every idol k with gain [max(1, base - 1 + extra_k)]
    and fatigue (2, 1). *)
Theorem practice_targets (g g' : GroupState) (idx : Z) (attr : stat)
    (d : practice_draws) :
  1 <= idx <= 4 ->
  practice g idx attr d = Some (Completed, g') ->
  fans g' = fans g /\
  reputation g' = (reputation g + if idx =? 4 then 0.03 else 0.01)%R /\
  forall j, nth_error (idols g') j =
    if idx =? 4 then
      option_map (train_idol attr (Z.max 1 (pd_base_gain d - 1 + pd_extra d j)) 2 1)
        (nth_error (idols g) j)
    else if (j =? Z.to_nat (idx - 1))%nat then
      option_map (train_idol attr (pd_base_gain d + pd_extra d O) 3 2)
        (nth_error (idols g) j)
    else nth_error (idols g) j.
Proof.
  intros Hidx. unfold practice. destruct (funds g <? _); [discriminate |].
  destruct (idx =? 4).
  - intros H. injection H as <-. simpl. repeat split.
    intros j. unfold mapi. rewrite nth_error_mapi_from. reflexivity.
  - rewrite py_index_nonneg by lia. simpl.
    destruct (nth_error _ _); simpl; [| discriminate].
    intros H. injection H as <-. simpl. repeat split.
    intros j. rewrite py_update_nonneg by lia. apply nth_error_update_nth.
Qed.

Lemma practice_targets_witness :
  exists g', practice make_game 1 vocal practice_draws_1 = Some (Completed, g') /\
    nth_error (idols g') 1 = nth_error (idols make_game) 1.
Proof.
  eexists. split; [reflexivity |].
  exact (proj2 (proj2 (practice_targets make_game _ 1 vocal practice_draws_1
                         ltac:(lia) eq_refl)) 1%nat).
Defined.

(** X10: work never costs fans: flyers bring at least 5 new fans and a
    guerilla live at least 6; the fatigue falls on the workers only:
    (1, 1) per flyers shift, (4, 3) per guerilla live, on every idol when
    the whole group works ([len(idols) + 1]), else on the chosen idol
    alone. *)
Theorem work_targets (g g' : GroupState) (wc : Z) (c : activity)
    (d : work_draws) :
  1 <= wc ->
  work g wc c d = Some (Completed, g') ->
  fans g + match c with Flyers => 5 | GuerillaLive => 6 end <= fans g' /\
  forall j, nth_error (idols g') j =
    let f := fun i => match c with
                      | Flyers => apply_fatigue i 1 1
                      | GuerillaLive => apply_fatigue i 4 3
                      end in
    if wc =? Z.of_nat (length (idols g)) + 1 then option_map f (nth_error (idols g) j)
    else if (j =? Z.to_nat (wc - 1))%nat then option_map f (nth_error (idols g) j)
    else nth_error (idols g) j.
Proof.
  intros Hwc. unfold work. destruct (select_workers _ _) as [w |]; simpl; [| discriminate].
  destruct c; (destruct (funds g <? _); [discriminate |]);
    unfold obind;
    repeat match goal with |- context [match mean ?x with _ => _ end] => destruct (mean x) end;
    intros H; try discriminate; injection H as <-; simpl;
    (split; [lia |]); intros j; unfold fatigue_workers; simpl;
    (destruct (wc =? _); [apply nth_error_map |]);
    rewrite py_update_nonneg by lia; apply nth_error_update_nth.
Qed.

Lemma work_targets_witness :
  exists g', work make_game 2 Flyers (Build_work_draws 8 1 10 0) = Some (Completed, g') /\
    fans make_game + 5 <= fans g'.
Proof.
  pose proof (eq_refl : work make_game 2 Flyers (Build_work_draws 8 1 10 0)
                        = Some (Completed, _)) as E.
  eexists. split; [exact E |].
  exact (proj1 (work_targets make_game _ 2 Flyers _ ltac:(lia) E)).
Defined.

Lemma fold_left_Rplus_bounds (lo hi : R) (xs : list R) (acc : R) :
  Forall (fun x => lo <= x <= hi)%R xs ->
  (acc + lo * INR (length xs) <= fold_left Rplus xs acc
   <= acc + hi * INR (length xs))%R.
Proof.
  revert acc. induction xs as [| x xs IH]; intros acc H; cbn [fold_left length].
  - simpl. lra.
  - inversion H as [| ? ? Hx Hxs]; subst.
    specialize (IH (acc + x)%R Hxs). rewrite S_INR. lra.
Qed.

Lemma mean_bounds (lo hi : R) (xs : list R) :
  xs <> [] -> Forall (fun x => lo <= x <= hi)%R xs ->
  exists m, mean xs = Some m /\ (lo <= m <= hi)%R.
Proof.
  intros Hne H. destruct xs as [| x xs']; [congruence |].
  set (xs := x :: xs') in *.
  exists (fold_left Rplus xs 0 / INR (length xs))%R. split; [reflexivity |].
  pose proof (fold_left_Rplus_bounds lo hi xs 0 H) as B.
  assert (Hn : (0 < INR (length xs))%R) by (apply lt_0_INR; simpl; lia).
  unfold Rdiv. split; apply (Rmult_le_reg_r (INR (length xs))); auto;
    rewrite Rmult_assoc, Rinv_l, Rmult_1_r by lra; lra.
Qed.

Lemma stats_valid_Forall (g : GroupState) :
  stats_valid g = true -> Forall (fun i => stats_in_range i = true) (idols g).
Proof.
  unfold stats_valid. intros H. apply Forall_forall.
  intros i Hi. exact (proj1 (forallb_forall _ _) H i Hi).
Qed.

Lemma in_range_R (i : Idol) (k : stat) :
  stats_in_range i = true -> (1 <= IZR (get_stat (idol_stats i) k) <= 100)%R.
Proof.
  intros H. pose proof (in_range_bounds i H k) as [H1 H2].
  split; apply IZR_le; lia.
Qed.

Lemma nth_error_in_range (g : GroupState) (j : nat) (i : Idol) :
  stats_valid g = true -> nth_error (idols g) j = Some i -> stats_in_range i = true.
Proof.
  intros Hv Hj. apply nth_error_In in Hj.
  exact (proj1 (forallb_forall _ _) Hv i Hj).
Qed.

(** X11: with every stat in [1, 100] and at least one idol, the group's
    performance (the mean of the weighted [avg_perf]) and its energy (the
    mean of stamina and mental) are defined and lie in [1, 100]; so the
    averages [live] computes never divide by zero on such a roster. *)
Theorem group_perf_energy_bounds (g : GroupState) :
  stats_valid g = true -> idols g <> [] ->
  exists p e, group_perf g = Some p /\ group_energy g = Some e /\
    (1 <= p <= 100)%R /\ (1 <= e <= 100)%R.
Proof.
  intros Hv Hne. pose proof (stats_valid_Forall g Hv) as HF.
  destruct (mean_bounds 1 100 (map avg_perf (idols g))) as (p & Hp & Bp).
  { destruct (idols g); simpl; congruence. }
  { apply Forall_map. eapply Forall_impl; [| exact HF]. intros i Hi.
    pose proof (in_range_R i vocal Hi); pose proof (in_range_R i dance Hi);
      pose proof (in_range_R i visual Hi); pose proof (in_range_R i stamina Hi);
      pose proof (in_range_R i mental Hi).
    unfold avg_perf. simpl in *. lra. }
  destruct (mean_bounds 1 100 (map (fun i => IZR (st_stamina (idol_stats i))) (idols g)))
    as (sa & Hs & Bs).
  { destruct (idols g); simpl; congruence. }
  { apply Forall_map. eapply Forall_impl; [| exact HF]. intros i Hi.
    exact (in_range_R i stamina Hi). }
  destruct (mean_bounds 1 100 (map (fun i => IZR (st_mental (idol_stats i))) (idols g)))
    as (me & Hme & Bme).
  { destruct (idols g); simpl; congruence. }
  { apply Forall_map. eapply Forall_impl; [| exact HF]. intros i Hi.
    exact (in_range_R i mental Hi). }
  exists p, ((sa + me) / 2)%R. unfold group_perf, group_energy.
  rewrite Hp, Hs, Hme. repeat split; auto; lra.
Qed.

Lemma group_perf_energy_bounds_witness :
  exists p e, group_perf make_game = Some p /\ group_energy make_game = Some e /\
    (1 <= p <= 100)%R /\ (1 <= e <= 100)%R.
Proof.
  apply group_perf_energy_bounds; [reflexivity | simpl; discriminate].
Defined.

(** X12: [live] with a negative fan count (which only a snapshot can hold:
    [_state_from_dict] reads [fans] with a bare [int()]) raises instead of
    performing: the formation and funds checks pass, then [fans ** 0.5]
    is complex and [max(0, hype)] fails, before any field is written. *)
Theorem live_negative_fans_raises (format_report : live_report -> string)
    (g : GroupState) (f : nat) (d : live_draws) :
  (f < 3)%nat -> venue_cost <= funds g -> idols g <> [] -> fans g < 0 ->
  live format_report g f d = None.
Proof.
  intros Hf Hfu Hne Hn. unfold live, live_settle.
  assert (Hfo : exists s, nth_error formations f = Some s).
  { destruct f as [| [| [| f]]]; simpl; eauto. lia. }
  destruct Hfo as [s Hs]. rewrite Hs. cbn [obind].
  replace (funds g <? venue_cost) with false by (symmetry; apply Z.ltb_ge; lia).
  unfold group_perf, group_energy.
  destruct (idols g) as [| i l]; [congruence |]. cbn [map mean obind].
  replace (fans g <? 0) with true by (symmetry; apply Z.ltb_lt; lia).
  reflexivity.
Qed.

Lemma live_negative_fans_raises_witness :
  live (fun _ => EmptyString) (set_fans make_game (-1)) 0 live_draws_low = None.
Proof.
  apply live_negative_fans_raises; simpl; first [lia | discriminate].
Defined.

(** X13: a completed live happens only with at least 350 in funds and a
    non-negative fan count, costs every idol 6 stamina and 5 mental
    ([apply_fatigue(idol, 6, 5)]), and leaves the day as it is. *)
Theorem live_completed_effects (format_report : live_report -> string)
    (g g' : GroupState) (f : nat) (d : live_draws) :
  live format_report g f d = Some (Completed, g') ->
  venue_cost <= funds g /\ 0 <= fans g /\
  idols g' = map (fun i => apply_fatigue i 6 5) (idols g) /\ day g' = day g.
Proof.
  intros H. apply live_completed_inv in H. destruct H as (g1 & r & E & ->).
  apply live_settle_Some in E.
  destruct E as (Hc & Hn & _ & _ & _ & _ & _ & ->). simpl. auto.
Qed.

Lemma live_completed_effects_witness :
  exists g', live (fun _ => EmptyString) live_scenario 0 live_draws_low
             = Some (Completed, g') /\
    idols g' = map (fun i => apply_fatigue i 6 5) (idols live_scenario).
Proof.
  destruct live_scenario_completes as (g1 & r & E).
  exists (set_last_live_report g1 (VStr EmptyString)). split.
  - unfold live. rewrite E. reflexivity.
  - refine (proj1 (proj2 (proj2 (live_completed_effects (fun _ => EmptyString)
                                   live_scenario _ 0 live_draws_low _)))).
    unfold live. rewrite E. reflexivity.
Defined.

(** X14: resting restores every idol of an in-range roster by its draws,
    stamina to [min(100, s + ds_k)] and mental to [min(100, m + dm_k)],
    touching no other stat; the reputation drops by 0.01 but is never
    left below -1 (one below -1 is raised to -1). *)
Theorem rest_day_spec (g : GroupState) (d : rest_draws) :
  rest_draws_ok d -> stats_valid g = true ->
  (-0.99 <= reputation g -> reputation (rest_day g d) = reputation g - 0.01)%R /\
  (reputation g - 0.01 < -1 -> reputation (rest_day g d) = -1)%R /\
  forall j i, nth_error (idols g) j = Some i ->
    exists i', nth_error (idols (rest_day g d)) j = Some i' /\
      st_stamina (idol_stats i') = Z.min 100 (st_stamina (idol_stats i) + rd_stamina d j) /\
      st_mental (idol_stats i') = Z.min 100 (st_mental (idol_stats i) + rd_mental d j) /\
      st_vocal (idol_stats i') = st_vocal (idol_stats i) /\
      st_dance (idol_stats i') = st_dance (idol_stats i) /\
      st_visual (idol_stats i') = st_visual (idol_stats i).
Proof.
  intros Hd Hv. split; [| split].
  - intros H. simpl. apply Rmax_right. lra.
  - intros H. simpl. apply Rmax_left. lra.
  - intros j i Hj. pose proof (nth_error_in_range g j i Hv Hj) as Hi.
    pose proof (in_range_bounds i Hi) as B. destruct (Hd j) as [Hs Hm].
    eexists. split.
    + simpl. unfold mapi. rewrite nth_error_mapi_from, Hj. reflexivity.
    + destruct i as [n a r b [v dn vi s m]].
      pose proof (B vocal); pose proof (B dance); pose proof (B visual);
        pose proof (B stamina); pose proof (B mental).
      unfold rest_idol, clamp_stats, clamp. simpl in *. repeat split; lia.
Qed.

Lemma rest_day_spec_witness :
  rest_draws_ok rest_draws_max /\
  exists i', nth_error (idols (rest_day rest_scenario rest_draws_max)) 0 = Some i' /\
    st_stamina (idol_stats i') = 100.
Proof.
  assert (Hd : rest_draws_ok rest_draws_max) by (intros k; simpl; lia).
  split; [exact Hd |].
  destruct (proj2 (proj2 (rest_day_spec rest_scenario rest_draws_max Hd eq_refl))
              0%nat _ eq_refl) as (i' & H1 & H2 & _).
  exists i'. split; [exact H1 | rewrite H2; reflexivity].
Defined.


Lemma state_from_dict_shape parse_int parse_float (data : value) (g : GroupState) :
  _state_from_dict parse_int parse_float data = Some (Some g) ->
  exists kvs payloads, data = VDict kvs /\
    py_iter (dict_get kvs "idols" (VList [])) = Some payloads /\
    map_option (idol_from_dict parse_int) payloads = Some (idols g) /\
    idols g <> [].
Proof.
  unfold _state_from_dict.
  destruct data as [| | | | | | kvs]; simpl; try discriminate.
  destruct (py_iter _) as [ps |] eqn:Ep; simpl; [| discriminate].
  destruct (map_option _ ps) as [l |] eqn:El; simpl; [| discriminate].
  destruct l as [| i l]; [discriminate |].
  unfold obind.
  repeat match goal with |- context [match ?x with _ => _ end] => destruct x end;
    intros H; try discriminate.
  injection H as <-. exists kvs, ps. simpl. repeat split; auto. discriminate.
Qed.

(** X15: a snapshot whose ["idols"] entry is missing or iterates to nothing
    (an empty list, dict or string) loads as [None], so [main] starts a
    new game; a snapshot that is not a JSON object raises. *)
Theorem state_from_dict_no_idols (parse_int : string -> option Z)
    (parse_float : string -> option R) (data : value) :
  (forall kvs, data = VDict kvs ->
     py_iter (dict_get kvs "idols" (VList [])) = Some [] ->
     _state_from_dict parse_int parse_float data = Some None) /\
  (as_dict data = None -> _state_from_dict parse_int parse_float data = None).
Proof.
  split.
  - intros kvs -> H. unfold _state_from_dict. simpl. rewrite H. reflexivity.
  - unfold _state_from_dict. intros ->. reflexivity.
Qed.

Lemma state_from_dict_no_idols_witness :
  _state_from_dict (fun _ => None) (fun _ => None) (VDict [("fans", VInt 3)])
  = Some None.
Proof.
  exact (proj1 (state_from_dict_no_idols (fun _ => None) (fun _ => None)
                  (VDict [("fans", VInt 3)])) _ eq_refl eq_refl).
Defined.



(** X17: each stat of a loaded idol is [clamp(int(v))] of the value [v]
    stored under its key in the idol's ["stats"] object, [v] being 1 when
    the key is missing; a loaded idol's stats are thus always in
    [1, 100], however far out of range the snapshot is. *)
Theorem idol_from_dict_stat (parse_int : string -> option Z)
    (p st : list (string * value)) (i : Idol) (k : stat) (v : Z) :
  idol_from_dict parse_int (VDict p) = Some i ->
  dict_get p "stats" (VDict []) = VDict st ->
  py_int_of parse_int (dict_get st (stat_key k) (VInt 1)) = Some v ->
  get_stat (idol_stats i) k = Z.max 1 (Z.min 100 v).
Proof.
  unfold idol_from_dict. simpl. intros H Hs Hv. rewrite Hs in H. simpl in H.
  revert H.
  destruct (py_int_of parse_int (dict_get st "vocal" _)) as [vo |] eqn:E1;
    simpl; [| discriminate].
  destruct (py_int_of parse_int (dict_get st "dance" _)) as [da |] eqn:E2;
    simpl; [| discriminate].
  destruct (py_int_of parse_int (dict_get st "visual" _)) as [vi |] eqn:E3;
    simpl; [| discriminate].
  destruct (py_int_of parse_int (dict_get st "stamina" _)) as [sa |] eqn:E4;
    simpl; [| discriminate].
  destruct (py_int_of parse_int (dict_get st "mental" _)) as [me |] eqn:E5;
    simpl; [| discriminate].
  destruct (py_int_of parse_int (dict_get p "age" _)); simpl; [| discriminate].
  intros H. injection H as <-. rewrite clamp_stats_get.
  unfold clamp. destruct k; simpl in Hv; simpl; congruence.
Qed.

Lemma idol_from_dict_stat_witness :
  idol_from_dict (fun _ => None) (VDict [("stats", VDict [("vocal", VInt 250)])])
  = Some (mkIdol (VStr "Unknown") 15 (VStr "Member") (VStr "")
            (mkStats 100 1 1 1 1)) /\
  get_stat (mkStats 100 1 1 1 1) vocal = Z.max 1 (Z.min 100 250).
Proof.
  split; [reflexivity |].
  exact (idol_from_dict_stat (fun _ => None)
           [("stats", VDict [("vocal", VInt 250)])] [("vocal", VInt 250)]
           (mkIdol (VStr "Unknown") 15 (VStr "Member") (VStr "") (mkStats 100 1 1 1 1))
           vocal 250 eq_refl eq_refl eq_refl).
Defined.

(** X18: whatever snapshot [_state_from_dict] accepts, saving the loaded
    state with [_state_to_dict] and loading it again gives the same state:
    loading normalises once (clamped stats, defaults filled in) and the
    result is a fixed point of save-then-load. *)
Theorem load_save_load (parse_int parse_int' : string -> option Z)
    (parse_float parse_float' : string -> option R) (data : value) (g : GroupState) :
  _state_from_dict parse_int parse_float data = Some (Some g) ->
  _state_from_dict parse_int' parse_float' (_state_to_dict g) = Some (Some g).
Proof.
  intros H.
  pose proof (state_from_dict_valid _ _ _ _ H) as Hv.
  destruct (state_from_dict_shape _ _ _ _ H) as (_ & _ & _ & _ & _ & Hne).
  destruct g as [n ag ai l dy fu fa re lr]. simpl in *.
  unfold _state_from_dict, _state_to_dict. simpl.
  rewrite (idols_roundtrip _ _ Hv). simpl.
  destruct l as [| i l]; [congruence |]. reflexivity.
Qed.

Lemma load_save_load_witness :
  exists g,
    _state_from_dict (fun _ => None) (fun _ => None)
      (VDict [("fans", VInt 7);
              ("idols", VList [VDict [("stats", VDict [("vocal", VInt 250)])]])])
    = Some (Some g) /\
    _state_from_dict (fun _ => None) (fun _ => None) (_state_to_dict g) = Some (Some g).
Proof.
  pose proof (eq_refl : _state_from_dict (fun _ => None) (fun _ => None)
      (VDict [("fans", VInt 7);
              ("idols", VList [VDict [("stats", VDict [("vocal", VInt 250)])]])])
      = Some (Some _)) as E.
  eexists. split; [exact E |].
  exact (load_save_load _ _ _ _ _ _ E).
Defined.
